(** * csv_to_sql: a shallow embedding of [csv_to_sql.py]

    The development follows the layout of the script:
    - Python's [str] helpers ([strip], [upper], [replace], [split]);
    - the two regular expressions [NUMERIC_RE] and [ISO_DT_RE], embedded as
      regular-expression syntax and run by a derivative matcher;
    - the part of [datetime] that [as_sql_datetime2_126] calls;
    - [as_sql_datetime2_126], [to_sql_literal], [build_columns] and the
      chunking loop of [main];
    - [write_chunk_sql] and the whole of [main], with the files written
      and the identifiers drawn from [uuid.uuid4] as explicit state.

    A Python [str] is a Rocq [string]; its characters are the code points
    below 256.  A Python [int] is a [Z]; [Optional[str]] is [option string];
    a Python list is a [list]. *)

From Stdlib Require Import ZArith List Bool Ascii String Lia.
From Stdlib Require Import DecimalString DecimalZ.
Import ListNotations.

Local Open Scope string_scope.
Local Open Scope Z_scope.

(** ** Column set: [build_columns] *)

Module Columns.

(** Truth value of a [str]: every string but the empty one. *)
Definition truthy (s : string) : bool := negb (s =? "")%string.

(** [c in l] on a list of strings. *)
Definition py_in (c : string) (l : list string) : bool :=
  existsb (String.eqb c) l.

(** [csv_columns or []]. *)
Definition or_nil (o : option (list string)) : list string :=
  match o with
  | None => []
  | Some l => l
  end.

(** Lines 109-123.  [id_column and generate_uuid] holds when [id_column]
    is a non-empty string and the flag is set. *)
Definition build_columns (csv_columns : option (list string))
    (exclude : list string) (id_column : option string)
    (generate_uuid : bool) : list string :=
  let cols :=
    filter (fun c => truthy c && negb (py_in c exclude)) (or_nil csv_columns) in
  match id_column with
  | Some id =>
      if truthy id && generate_uuid then
        if negb (py_in id cols) then id :: cols
        else id :: filter (fun c => negb (c =? id)%string) cols
      else cols
  | None => cols
  end.

End Columns.

(** ** Chunking: the loop of [main] *)

Module Chunking.

(** [math.ceil(a / b)] for [0 <= a] and [0 < b].  The script divides two
    floats; the quotient of two integers below 2^53 is rounded to a float
    whose ceiling is the exact one, and [a] is the length of a list held in
    memory, so the exact ceiling is what the script computes. *)
Definition ceil_div (a b : Z) : Z :=
  if a mod b =? 0 then a / b else a / b + 1.

(** [range(n)]. *)
Definition range (n : Z) : list Z :=
  map Z.of_nat (seq 0 (Z.to_nat n)).

(** Normalisation of one bound of a slice of a list of length [len]. *)
Definition slice_index (len i : Z) : Z :=
  if i <? 0 then Z.max (i + len) 0 else Z.min i len.

Section Rows.

Variable row : Type.

(** [l[start:stop]]. *)
Definition py_slice (l : list row) (start stop : Z) : list row :=
  let len := Z.of_nat (List.length l) in
  let a := slice_index len start in
  let b := slice_index len stop in
  firstn (Z.to_nat (b - a)) (skipn (Z.to_nat a) l).

(** Line 144: [chunk_size = max(1, int(args.chunk_size))]. *)
Definition effective_chunk_size (chunk_size_arg : Z) : Z :=
  Z.max 1 chunk_size_arg.

(** Lines 165-170, for an effective chunk size: the pairs (chunk number,
    chunk) that the loop hands to [write_chunk_sql], in order. *)
Definition partition (chunk_size : Z) (all_rows : list row)
    : list (Z * list row) :=
  let total := Z.of_nat (List.length all_rows) in
  let parts := ceil_div total chunk_size in
  map (fun i =>
         let start := i * chunk_size in
         let stop := Z.min (start + chunk_size) total in
         (i + 1, py_slice all_rows start stop))
      (range parts).

(** Lines 144 and 159-180 of [main]: the calls of [write_chunk_sql] made for
    the configured chunk size and the rows read from the file. *)
Definition main (chunk_size_arg : Z) (all_rows : list row)
    : list (Z * list row) :=
  let chunk_size := effective_chunk_size chunk_size_arg in
  let total := Z.of_nat (List.length all_rows) in
  if total =? 0 then [] else partition chunk_size all_rows.

End Rows.

Arguments py_slice {row} l start stop.
Arguments partition {row} chunk_size all_rows.
Arguments main {row} chunk_size_arg all_rows.

End Chunking.

(** ** Python's [str] methods used by the script *)

Module PyStr.

(** Code point of a character. *)
Definition ord (c : ascii) : Z := Z.of_N (N_of_ascii c).

(** [c.isspace()] on the code points below 256: TAB, LF, VT, FF, CR, the
    four separators FS GS RS US, SPACE, NEL (0x85) and NBSP (0xA0). *)
Definition is_space (c : ascii) : bool :=
  let n := ord c in
  ((9 <=? n) && (n <=? 13)) || ((28 <=? n) && (n <=? 32))
  || (n =? 133) || (n =? 160).

(** [\d] and [c.isdecimal()] on the code points below 256: 0-9 only. *)
Definition is_digit (c : ascii) : bool :=
  let n := ord c in (48 <=? n) && (n <=? 57).

(** [s.lstrip()]. *)
Fixpoint lstrip (s : string) : string :=
  match s with
  | EmptyString => EmptyString
  | String c t => if is_space c then lstrip t else s
  end.

(** [s.rstrip()]. *)
Fixpoint rstrip (s : string) : string :=
  match s with
  | EmptyString => EmptyString
  | String c t =>
      match rstrip t with
      | EmptyString => if is_space c then EmptyString else String c EmptyString
      | t' => String c t'
      end
  end.

(** [s.strip()]. *)
Definition strip (s : string) : string := lstrip (rstrip s).

(** [c.upper()] for one character.  Lower-case ASCII and Latin-1 letters
    move down by 32 and the sharp s becomes two letters; the capitals of
    the micro sign (0xB5) and of y with diaeresis (0xFF) lie above 255 and
    are kept as they are, which leaves every comparison with an ASCII word
    unchanged. *)
Definition upper_char (c : ascii) : string :=
  let n := ord c in
  if (97 <=? n) && (n <=? 122) then
    String (ascii_of_N (Z.to_N (n - 32))) EmptyString
  else if n =? 223 then "SS"
  else if (224 <=? n) && (n <=? 254) && negb (n =? 247) then
    String (ascii_of_N (Z.to_N (n - 32))) EmptyString
  else String c EmptyString.

(** [s.upper()]. *)
Fixpoint upper (s : string) : string :=
  match s with
  | EmptyString => EmptyString
  | String c t => upper_char c ++ upper t
  end.

(** [s.replace(old, new)] for a one-character [old]. *)
Fixpoint replace (old : ascii) (new : string) (s : string) : string :=
  match s with
  | EmptyString => EmptyString
  | String c t =>
      if Ascii.eqb c old then new ++ replace old new t
      else String c (replace old new t)
  end.

(** [s.endswith(c)] for a one-character suffix. *)
Fixpoint endswith (s : string) (c : ascii) : bool :=
  match s with
  | EmptyString => false
  | String x EmptyString => Ascii.eqb x c
  | String _ t => endswith t c
  end.

(** [s[:-1]]. *)
Fixpoint drop_last (s : string) : string :=
  match s with
  | EmptyString => EmptyString
  | String _ EmptyString => EmptyString
  | String c t => String c (drop_last t)
  end.

(** [s.split(sep)] for a one-character separator. *)
Fixpoint split (sep : ascii) (s : string) : list string :=
  match s with
  | EmptyString => [EmptyString]
  | String c t =>
      if Ascii.eqb c sep then EmptyString :: split sep t
      else match split sep t with
           | h :: r => String c h :: r
           | [] => [String c EmptyString]
           end
  end.

(** [s.find(c)] for a one-character needle; [None] is Python's -1. *)
Fixpoint find (c : ascii) (s : string) : option nat :=
  match s with
  | EmptyString => None
  | String x t =>
      if Ascii.eqb x c then Some O
      else match find c t with
           | Some i => Some (S i)
           | None => None
           end
  end.

(** [s[a:b]] for [0 <= a <= b]. *)
Definition slice (s : string) (a b : nat) : string :=
  substring a (b - a) s.

(** [s[a:]] for [0 <= a]. *)
Definition slice_from (s : string) (a : nat) : string :=
  substring a (String.length s - a) s.

End PyStr.

(** ** Regular expressions ([re]) *)

Module Re.

(** Syntax of the patterns the script compiles; a character class is a
    predicate on characters. *)
Inductive regex : Type :=
| Void : regex
| Eps : regex
| Class : (ascii -> bool) -> regex
| Seq : regex -> regex -> regex
| Alt : regex -> regex -> regex
| Star : regex -> regex.

(** [c]: one given character. *)
Definition Chr (c : ascii) : regex := Class (Ascii.eqb c).

(** [(?:r)?] *)
Definition Opt (r : regex) : regex := Alt r Eps.

(** [r+] *)
Definition Plus (r : regex) : regex := Seq r (Star r).

(** [r{n}] *)
Fixpoint Rep (n : nat) (r : regex) : regex :=
  match n with
  | O => Eps
  | S k => Seq r (Rep k r)
  end.

(** [r{0,n}] *)
Fixpoint UpTo (n : nat) (r : regex) : regex :=
  match n with
  | O => Eps
  | S k => Opt (Seq r (UpTo k r))
  end.

(** [r{lo,hi}] *)
Definition Range (lo hi : nat) (r : regex) : regex :=
  Seq (Rep lo r) (UpTo (hi - lo) r).

(** Does [r] accept the empty string? *)
Fixpoint nullable (r : regex) : bool :=
  match r with
  | Void => false
  | Eps => true
  | Class _ => false
  | Seq a b => nullable a && nullable b
  | Alt a b => nullable a || nullable b
  | Star _ => true
  end.

(** Brzozowski derivative of [r] by the character [c]. *)
Fixpoint deriv (c : ascii) (r : regex) : regex :=
  match r with
  | Void => Void
  | Eps => Void
  | Class p => if p c then Eps else Void
  | Seq a b =>
      if nullable a then Alt (Seq (deriv c a) b) (deriv c b)
      else Seq (deriv c a) b
  | Alt a b => Alt (deriv c a) (deriv c b)
  | Star a => Seq (deriv c a) (Star a)
  end.

(** Does [r] accept exactly the whole of [s]? *)
Fixpoint fullmatch (r : regex) (s : string) : bool :=
  match s with
  | EmptyString => nullable r
  | String c t => fullmatch (deriv c r) t
  end.

(** Truth value of [re.match("^r$", s)]: without [re.MULTILINE], [^] is the
    start of the string and [$] is its end or the position before a
    newline that ends it. *)
Definition re_match (r : regex) (s : string) : bool :=
  fullmatch r s
  || (PyStr.endswith s "010"%char && fullmatch r (PyStr.drop_last s)).

(** The language of a pattern, as a relation. *)
Inductive lang : regex -> string -> Prop :=
| lang_eps : lang Eps EmptyString
| lang_class : forall (p : ascii -> bool) c,
    p c = true -> lang (Class p) (String c EmptyString)
| lang_seq : forall a b s t,
    lang a s -> lang b t -> lang (Seq a b) (s ++ t)
| lang_alt_l : forall a b s, lang a s -> lang (Alt a b) s
| lang_alt_r : forall a b s, lang b s -> lang (Alt a b) s
| lang_star_nil : forall a, lang (Star a) EmptyString
| lang_star_cons : forall a s t,
    lang a s -> lang (Star a) t -> lang (Star a) (s ++ t).

End Re.

(** ** The patterns of lines 19-26 *)

Module Patterns.

Import Re.
(** [\d] *)
Definition digit : regex := Class PyStr.is_digit.

(** [[+-]] *)
Definition sign : regex :=
  Class (fun c => Ascii.eqb c "+"%char || Ascii.eqb c "-"%char).

(** [NUMERIC_RE]: [^[+-]?\d+(?:\.\d+)?$] *)
Definition NUMERIC_RE : regex :=
  Seq (Opt sign) (Seq (Plus digit) (Opt (Seq (Chr "."%char) (Plus digit)))).

(** [\d{4}-\d{2}-\d{2}] *)
Definition DATE_RE : regex :=
  Seq (Rep 4 digit) (Seq (Chr "-"%char) (Seq (Rep 2 digit)
    (Seq (Chr "-"%char) (Rep 2 digit)))).

(** [T\d{2}:\d{2}:\d{2}] *)
Definition CLOCK_RE : regex :=
  Seq (Chr "T"%char) (Seq (Rep 2 digit) (Seq (Chr ":"%char) (Seq (Rep 2 digit)
    (Seq (Chr ":"%char) (Rep 2 digit))))).

(** [(?:\.\d{1,9})?] *)
Definition FRACTION_RE : regex :=
  Opt (Seq (Chr "."%char) (Range 1 9 digit)).

(** [(?:Z|[+\-]\d{2}:\d{2})?] *)
Definition ZONE_RE : regex :=
  Opt (Alt (Chr "Z"%char)
           (Seq sign (Seq (Rep 2 digit) (Seq (Chr ":"%char) (Rep 2 digit))))).

(** [ISO_DT_RE], lines 20-26. *)
Definition ISO_DT_RE : regex :=
  Seq DATE_RE (Opt (Seq CLOCK_RE (Seq FRACTION_RE ZONE_RE))).

End Patterns.

(** ** The part of Python's [datetime] that the script calls

    [None] stands for a raised [ValueError] or [OverflowError]; the script
    catches both with [except Exception]. *)

Module Datetime.

Import PyStr.

(** A [datetime] object; [tzinfo] is the UTC offset of its fixed-offset
    [timezone], in microseconds, or [None] for a naive value. *)
Record datetime : Type := mkdatetime {
  year : Z;
  month : Z;
  day : Z;
  hour : Z;
  minute : Z;
  second : Z;
  microsecond : Z;
  tzinfo : option Z
}.

Definition MAXORDINAL : Z := 3652059.

Definition DAYS_IN_MONTH : list Z :=
  [-1; 31; 28; 31; 30; 31; 30; 31; 31; 30; 31; 30; 31].

Definition DAYS_BEFORE_MONTH : list Z :=
  [-1; 0; 31; 59; 90; 120; 151; 181; 212; 243; 273; 304; 334].

Definition is_leap (y : Z) : bool :=
  (y mod 4 =? 0) && (negb (y mod 100 =? 0) || (y mod 400 =? 0)).

Definition days_before_year (yr : Z) : Z :=
  let y := yr - 1 in
  y * 365 + y / 4 - y / 100 + y / 400.

Definition days_in_month (y m : Z) : Z :=
  if (m =? 2) && is_leap y then 29 else nth (Z.to_nat m) DAYS_IN_MONTH 0.

Definition days_before_month (y m : Z) : Z :=
  nth (Z.to_nat m) DAYS_BEFORE_MONTH 0
  + (if (2 <? m) && is_leap y then 1 else 0).

(** Day number of a date, 0001-01-01 being day 1. *)
Definition ymd2ord (y m d : Z) : Z :=
  days_before_year y + days_before_month y m + d.

Definition DI400Y : Z := 146097.
Definition DI100Y : Z := 36524.
Definition DI4Y : Z := 1461.

(** The date of a day number. *)
Definition ord2ymd (n : Z) : Z * Z * Z :=
  let n := n - 1 in
  let n400 := n / DI400Y in
  let n := n mod DI400Y in
  let yr := n400 * 400 + 1 in
  let n100 := n / DI100Y in
  let n := n mod DI100Y in
  let n4 := n / DI4Y in
  let n := n mod DI4Y in
  let n1 := n / 365 in
  let n := n mod 365 in
  let yr := yr + n100 * 100 + n4 * 4 + n1 in
  if (n1 =? 4) || (n100 =? 4) then (yr - 1, 12, 31)
  else
    let leapyear := (n1 =? 3) && (negb (n4 =? 24) || (n100 =? 3)) in
    let m := Z.shiftr (n + 50) 5 in
    let preceding :=
      nth (Z.to_nat m) DAYS_BEFORE_MONTH 0
      + (if (2 <? m) && leapyear then 1 else 0) in
    if n <? preceding then
      let m := m - 1 in
      let preceding :=
        preceding - (nth (Z.to_nat m) DAYS_IN_MONTH 0
                     + (if (m =? 2) && leapyear then 1 else 0)) in
      (yr, m, n - preceding + 1)
    else (yr, m, n - preceding + 1).

(** The range checks of the constructors of [datetime] and [timezone]. *)
Definition check_date_fields (y m d : Z) : bool :=
  (1 <=? y) && (y <=? 9999) && (1 <=? m) && (m <=? 12)
  && (1 <=? d) && (d <=? days_in_month y m).

Definition check_time_fields (h mi s us : Z) : bool :=
  (0 <=? h) && (h <=? 23) && (0 <=? mi) && (mi <=? 59)
  && (0 <=? s) && (s <=? 59) && (0 <=? us) && (us <=? 999999).

Definition check_offset (off : Z) : bool :=
  (- 86400000000 <? off) && (off <? 86400000000).

(** [datetime(y, m, d, h, mi, s, us, tz)]. *)
Definition new_datetime (y m d h mi s us : Z) (tz : option Z)
    : option datetime :=
  if check_date_fields y m d && check_time_fields h mi s us
  then Some (mkdatetime y m d h mi s us tz)
  else None.

(** Value of a decimal digit. *)
Definition digit_val (c : ascii) : option Z :=
  if is_digit c then Some (ord c - 48) else None.

Fixpoint int_of_digits (acc : Z) (s : string) : option Z :=
  match s with
  | EmptyString => Some acc
  | String c t =>
      match digit_val c with
      | Some d => int_of_digits (acc * 10 + d) t
      | None => None
      end
  end.

(** [int(s)] as the parser uses it: [s] is a non-empty run of digits. *)
Definition parse_int (s : string) : option Z :=
  match s with
  | EmptyString => None
  | _ => int_of_digits 0 s
  end.

(** [all(map(_is_ascii_digit, s))]. *)
Fixpoint all_digits (s : string) : bool :=
  match s with
  | EmptyString => true
  | String c t => is_digit c && all_digits t
  end.

(** [_parse_isoformat_date] on the ten characters [YYYY-MM-DD]. *)
Definition parse_isoformat_date (dtstr : string) : option (Z * Z * Z) :=
  match parse_int (slice dtstr 0 4), parse_int (slice dtstr 5 7),
        parse_int (slice dtstr 8 10) with
  | Some y, Some m, Some d =>
      if (slice dtstr 7 8 =? "-")%string then Some (y, m, d) else None
  | _, _, _ => None
  end.

Definition FRACTION_CORRECTION : list Z := [100000; 10000; 1000; 100; 10].

(** The end of [_parse_hh_mm_ss_ff]: the fraction that may follow the
    clock fields read up to [pos].  Digits after the sixth are checked and
    dropped. *)
Definition parse_fraction (tstr : string) (pos : nat) : option Z :=
  let len_str := String.length tstr in
  if (pos <? len_str)%nat then
    if ((slice tstr pos (pos + 1) =? ".")
        || (slice tstr pos (pos + 1) =? ","))%string
    then
      let pos := (pos + 1)%nat in
      let len_remainder := (len_str - pos)%nat in
      let to_parse :=
        if (6 <=? len_remainder)%nat then 6%nat else len_remainder in
      match parse_int (slice tstr pos (pos + to_parse)) with
      | None => None
      | Some f =>
          let f :=
            if (to_parse <? 6)%nat
            then f * nth (to_parse - 1) FRACTION_CORRECTION 0
            else f in
          if (to_parse <? len_remainder)%nat
             && negb (all_digits (slice_from tstr (pos + to_parse)))
          then None
          else Some f
      end
    else None
  else Some 0.

(** [_parse_hh_mm_ss_ff]: [HH[:MM[:SS[.f+]]]] with or without colons. *)
Definition parse_hh_mm_ss_ff (tstr : string) : option (Z * Z * Z * Z) :=
  let len_str := String.length tstr in
  let finish (pos : nat) (h mi s : Z) :=
    match parse_fraction tstr pos with
    | Some us => Some (h, mi, s, us)
    | None => None
    end in
  if (len_str <? 2)%nat then None else
  match parse_int (slice tstr 0 2) with
  | None => None
  | Some h =>
      let next_char := slice tstr 2 3 in
      let has_sep := (next_char =? ":")%string in
      if (next_char =? "")%string then finish 2%nat h 0 0 else
      let pos := (2 + (if has_sep then 1 else 0))%nat in
      if (len_str - pos <? 2)%nat then None else
      match parse_int (slice tstr pos (pos + 2)) with
      | None => None
      | Some mi =>
          let pos := (pos + 2)%nat in
          let next_char := slice tstr pos (pos + 1) in
          if (next_char =? "")%string then finish pos h mi 0 else
          if has_sep && negb (next_char =? ":")%string then None else
          let pos := (pos + (if has_sep then 1 else 0))%nat in
          if (len_str - pos <? 2)%nat then None else
          match parse_int (slice tstr pos (pos + 2)) with
          | None => None
          | Some s => finish (pos + 2)%nat h mi s
          end
      end
  end.

(** [tstr.find('-') + 1 or tstr.find('+') + 1 or tstr.find('Z') + 1]. *)
Definition find_tz_pos (tstr : string) : nat :=
  match find "-"%char tstr with
  | Some i => S i
  | None =>
      match find "+"%char tstr with
      | Some i => S i
      | None =>
          match find "Z"%char tstr with
          | Some i => S i
          | None => O
          end
      end
  end.

(** [_parse_isoformat_time]: the clock fields and the offset. *)
Definition parse_isoformat_time (tstr : string)
    : option (Z * Z * Z * Z * option Z) :=
  let len_str := String.length tstr in
  if (len_str <? 2)%nat then None else
  let tz_pos := find_tz_pos tstr in
  let timestr :=
    if (0 <? tz_pos)%nat then slice tstr 0 (tz_pos - 1) else tstr in
  match parse_hh_mm_ss_ff timestr with
  | None => None
  | Some (h, mi, s, us) =>
      if (tz_pos =? len_str)%nat && endswith tstr "Z"%char then
        Some (h, mi, s, us, Some 0)
      else if (0 <? tz_pos)%nat then
        let tzstr := slice_from tstr tz_pos in
        let n := String.length tzstr in
        if ((n =? 0) || (n =? 1) || (n =? 3))%nat then None else
        match parse_hh_mm_ss_ff tzstr with
        | None => None
        | Some (zh, zmi, zs, zus) =>
            let tzsign :=
              if (slice tstr (tz_pos - 1) tz_pos =? "-")%string then -1
              else 1 in
            let off := tzsign * ((zh * 3600 + zmi * 60 + zs) * 1000000 + zus) in
            if check_offset off then Some (h, mi, s, us, Some off) else None
        end
      else Some (h, mi, s, us, None)
  end.

(** [datetime.fromisoformat] as of Python 3.11, for the extended calendar
    format [YYYY-MM-DD], alone or followed by one separator character and a
    time.  The basic format [YYYYMMDD] and the week dates, which no string
    accepted by [ISO_DT_RE] uses, are outside the model and give [None]. *)
Definition fromisoformat (date_string : string) : option datetime :=
  if (String.length date_string <? 10)%nat then None else
  if negb (slice date_string 4 5 =? "-")%string
     || (slice date_string 5 6 =? "W")%string then None else
  let dstr := slice date_string 0 10 in
  let tstr := slice_from date_string 11 in
  match parse_isoformat_date dstr with
  | None => None
  | Some (y, m, d) =>
      if (tstr =? "")%string then new_datetime y m d 0 0 0 0 None
      else
        match parse_isoformat_time tstr with
        | None => None
        | Some (h, mi, s, us, tz) => new_datetime y m d h mi s us tz
        end
  end.

(** Microseconds from the start of day 0 of the calendar to the wall-clock
    reading of [dt]. *)
Definition wall_us (dt : datetime) : Z :=
  ((ymd2ord (year dt) (month dt) (day dt) * 86400
    + hour dt * 3600 + minute dt * 60 + second dt) * 1000000)
  + microsecond dt.

(** [dt + timedelta(microseconds=delta)]: the new value keeps the [tzinfo]
    of [dt]; a day number outside 1..MAXORDINAL raises [OverflowError]. *)
Definition add_us (dt : datetime) (delta : Z) : option datetime :=
  let total := wall_us dt + delta in
  let days := total / 86400000000 in
  let rest := total mod 86400000000 in
  let secs := rest / 1000000 in
  let us := rest mod 1000000 in
  let h := secs / 3600 in
  let mi := (secs mod 3600) / 60 in
  let s := (secs mod 3600) mod 60 in
  if (0 <? days) && (days <=? MAXORDINAL) then
    let '(y, m, d) := ord2ymd days in
    Some (mkdatetime y m d h mi s us (tzinfo dt))
  else None.

(** [dt.replace(tzinfo=tz)]. *)
Definition replace_tzinfo (dt : datetime) (tz : option Z) : datetime :=
  mkdatetime (year dt) (month dt) (day dt) (hour dt) (minute dt)
             (second dt) (microsecond dt) tz.

(** [dt.astimezone(timezone.utc)] for an aware [dt] of offset [off]:
    [(dt - off).replace(tzinfo=utc)], then [utc.fromutc], which adds the
    zero offset. *)
Definition astimezone_utc (dt : datetime) (off : Z) : option datetime :=
  match add_us dt (- off) with
  | None => None
  | Some u => add_us (replace_tzinfo u (Some 0)) 0
  end.

(** Character of a decimal digit. *)
Definition digit_char (d : Z) : ascii := ascii_of_N (Z.to_N (48 + d)).

(** [x] written with [n] decimal digits, zero-padded. *)
Fixpoint fmt_digits (n : nat) (x : Z) : string :=
  match n with
  | O => EmptyString
  | S k => fmt_digits k (x / 10) ++ String (digit_char (x mod 10)) EmptyString
  end.

(** [dt.strftime("%Y-%m-%dT%H:%M:%S.%f")].  [%Y] is the year zero-padded to
    four digits, as the library documents it (0001, ..., 9999); [%f] is the
    microsecond on six digits. *)
Definition strftime (dt : datetime) : string :=
  fmt_digits 4 (year dt) ++ "-" ++ fmt_digits 2 (month dt) ++ "-"
  ++ fmt_digits 2 (day dt) ++ "T" ++ fmt_digits 2 (hour dt) ++ ":"
  ++ fmt_digits 2 (minute dt) ++ ":" ++ fmt_digits 2 (second dt) ++ "."
  ++ fmt_digits 6 (microsecond dt).

End Datetime.

(** ** Literal inference: lines 28-67 *)

Module Literal.

Import PyStr Re Patterns Datetime.

(** Lines 32-36: the text handed to [datetime.fromisoformat]. *)
Definition iso_text (s : string) : string :=
  let v := strip s in
  let v := if re_match DATE_RE v then v ++ "T00:00:00" else v in
  if endswith v "Z"%char then drop_last v ++ "+00:00" else v.

(** Lines 37-47, the [try] and its [except Exception: pass]: the value of
    [v] after them.  An exception raised by line 38 or line 40 leaves [v]
    as it was; line 41 assigns the formatted text, which stays if the
    unpacking of line 42 fails. *)
Definition normalise (v : string) : string :=
  match fromisoformat v with
  | None => v
  | Some dt =>
      let converted :=
        match tzinfo dt with
        | Some off =>
            match astimezone_utc dt off with
            | Some u => Some (replace_tzinfo u None)
            | None => None
            end
        | None => Some dt
        end in
      match converted with
      | None => v
      | Some dt =>
          let v := strftime dt in
          match split "."%char v with
          | [sec; frac] => sec ++ "." ++ slice (frac ++ "0") 0 7
          | _ => v
          end
      end
  end.

(** Lines 28-48. *)
Definition as_sql_datetime2_126 (s : string) : string :=
  "CONVERT(datetime2(7), '" ++ normalise (iso_text s) ++ "', 126)".

(** Lines 50-67. *)
Definition to_sql_literal (val : option string) : string :=
  match val with
  | None => "NULL"
  | Some val =>
      let v := strip val in
      if ((v =? "") || (upper v =? "NULL"))%string then "NULL"
      else if re_match ISO_DT_RE v then as_sql_datetime2_126 v
      else if re_match NUMERIC_RE v then v
      else "N'" ++ replace "'"%char "''" v ++ "'"
  end.

End Literal.

(** ** Emission: [write_chunk_sql], lines 79-107 *)

Module Emit.

Import PyStr Literal Columns.

(** A row of [csv.DictReader]: the items of a [dict] from field names to
    values.  A short line of the file leaves the value [None] under the
    remaining names; a [dict] holds a key once. *)
Definition row : Type := list (string * option string).

(** [r.get(c, "")]. *)
Fixpoint dict_get (r : row) (c : string) : option string :=
  match r with
  | [] => Some ""
  | (k, v) :: t => if (k =? c)%string then v else dict_get t c
  end.

(** [str(z)] and [f"{z}"] for an [int]. *)
Definition str_int (z : Z) : string := NilZero.string_of_int (Z.to_int z).

Fixpoint zeros (n : nat) : string :=
  match n with
  | O => EmptyString
  | S k => String "0"%char (zeros k)
  end.

(** [s.zfill(width)] for a run of digits. *)
Definition zfill (width : nat) (s : string) : string :=
  zeros (width - String.length s) ++ s.

(** [f"{z:03d}"]: at least three characters, the sign counted, zeros put
    after the sign. *)
Definition fmt_03d (z : Z) : string :=
  if z <? 0 then "-" ++ zfill 2 (str_int (- z)) else zfill 3 (str_int z).

(** The newline character, as a text. *)
Definition nl : string := String "010"%char EmptyString.

(** Line 89. *)
Definition out_path (out_base : string) (idx : Z) : string :=
  out_base ++ "-part-" ++ fmt_03d idx ++ ".sql".

(** Line 99: [id_column and generate_uuid and c == id_column]. *)
Definition is_generated (id_column : option string) (generate_uuid : bool)
    (c : string) : bool :=
  match id_column with
  | Some id => truthy id && generate_uuid && (c =? id)%string
  | None => false
  end.

(** Lines 103-105: the statement written for one row. *)
Definition insert_statement (table : string) (columns vals : list string)
    : string :=
  "INSERT INTO " ++ table ++ " (" ++ String.concat ", " columns
  ++ ") VALUES (" ++ String.concat ", " vals ++ ");" ++ nl.

(** Lines 91-95 and 106: the text of a file around its statements. *)
Definition file_text (idx : Z) (table : string) (columns : list string)
    (nrows : nat) (statements : list string) : string :=
  "-- Generated from chunk " ++ str_int idx ++ nl
  ++ "-- Table: " ++ table ++ nl
  ++ "-- Columns: " ++ String.concat ", " columns ++ nl
  ++ "-- Rows in this file: " ++ str_int (Z.of_nat nrows) ++ nl ++ nl
  ++ "BEGIN TRAN;" ++ nl
  ++ String.concat "" statements
  ++ "COMMIT TRAN;" ++ nl ++ "GO" ++ nl.

Section Generator.

(** [uuid4 k] is the text of the identifier that the call number [k] of
    [uuid.uuid4()] returns in this run, counted from 0.  The state threaded
    through the functions below is the number of calls made so far. *)
Variable uuid4 : nat -> string.

(** Lines 98-102: the values of one row, column by column. *)
Fixpoint row_values (id_column : option string) (generate_uuid : bool)
    (r : row) (columns : list string) (n : nat) : list string * nat :=
  match columns with
  | [] => ([], n)
  | c :: cs =>
      if is_generated id_column generate_uuid c then
        let '(vals, n') := row_values id_column generate_uuid r cs (S n) in
        (("'" ++ uuid4 n ++ "'") :: vals, n')
      else
        let '(vals, n') := row_values id_column generate_uuid r cs n in
        (to_sql_literal (dict_get r c) :: vals, n')
  end.

(** Lines 96-105: the statements of a chunk, row by row. *)
Fixpoint chunk_statements (rows : list row) (columns : list string)
    (table : string) (id_column : option string) (generate_uuid : bool)
    (n : nat) : list string * nat :=
  match rows with
  | [] => ([], n)
  | r :: rs =>
      let '(vals, n1) := row_values id_column generate_uuid r columns n in
      let '(stmts, n2) :=
        chunk_statements rs columns table id_column generate_uuid n1 in
      (insert_statement table columns vals :: stmts, n2)
  end.

(** Lines 79-107: the path and the text of the file written, and the new
    state of the generator. *)
Definition write_chunk_sql (idx : Z) (rows : list row)
    (columns : list string) (table out_base : string)
    (id_column : option string) (generate_uuid : bool) (n : nat)
    : (string * string) * nat :=
  let '(stmts, n') :=
    chunk_statements rows columns table id_column generate_uuid n in
  ((out_path out_base idx,
    file_text idx table columns (List.length rows) stmts), n').

End Generator.

End Emit.

(** ** The script: [main], lines 138-184 *)

Module Script.

Import PyStr Columns Emit.

(** The fields of the [argparse] namespace that [main] reads after the
    file has been opened. *)
Record args : Type := mkargs {
  table : string;
  out_base : string;
  chunk_size : Z;
  id_column : option string;
  no_generate_uuid : bool;
  exclude_columns : option (list string)
}.

(** Line 145: [(args.id_column or "").strip() or None]. *)
Definition effective_id_column (a : args) : option string :=
  let s := strip (match id_column a with Some s => s | None => "" end) in
  if truthy s then Some s else None.

(** Line 146: [not args.no_generate_uuid and bool(id_column)]. *)
Definition effective_generate_uuid (a : args) : bool :=
  negb (no_generate_uuid a)
  && match effective_id_column a with Some s => truthy s | None => false end.

(** Lines 154-157: the column set. *)
Definition columns_of (a : args) (fieldnames : option (list string))
    : list string :=
  build_columns (Some (or_nil fieldnames)) (or_nil (exclude_columns a))
    (effective_id_column a) (effective_generate_uuid a).

Section Generator.

Variable uuid4 : nat -> string.

(** Lines 167-180: the calls of [write_chunk_sql] for the chunks in turn;
    the files they write, in order, and the state of the generator. *)
Fixpoint write_chunks (a : args) (cols : list string)
    (chunks : list (Z * list row)) (n : nat)
    : list (string * string) * nat :=
  match chunks with
  | [] => ([], n)
  | (idx, chunk) :: rest =>
      let '(file, n1) :=
        write_chunk_sql uuid4 idx chunk cols (table a) (out_base a)
          (effective_id_column a) (effective_generate_uuid a) n in
      let '(files, n2) := write_chunks a cols rest n1 in
      (file :: files, n2)
  end.

(** Lines 138-180: the files written for the arguments, the header and
    the rows read from the CSV file, as (path, text) in the order of
    writing. *)
Definition main (a : args) (fieldnames : option (list string))
    (all_rows : list row) : list (string * string) :=
  fst (write_chunks a (columns_of a fieldnames)
         (Chunking.main (chunk_size a) all_rows) 0).

End Generator.

End Script.

(** ** Vocabulary of the specification

    Notions the properties below are stated and proved with; none of them
    is used by the embedding of the script. *)

Module Spec.

Import PyStr Datetime.

(** Lower-case form of an ASCII letter; other characters are kept. *)
Definition lower_ascii (c : ascii) : ascii :=
  let n := ord c in
  if (65 <=? n) && (n <=? 90) then ascii_of_N (Z.to_N (n + 32)) else c.

Fixpoint lower (s : string) : string :=
  match s with
  | EmptyString => EmptyString
  | String c t => String (lower_ascii c) (lower t)
  end.

(** Equality of two texts up to the case of their letters. *)
Definition eq_ignore_case (a b : string) : Prop := lower a = lower b.

(** The null sentinel: an absent value, or one whose trimmed form is empty
    or is the word NULL in any mix of cases. *)
Definition null_sentinel (val : option string) : Prop :=
  match val with
  | None => True
  | Some s => strip s = "" \/ eq_ignore_case (strip s) "NULL"
  end.

(** The numeric pattern in words: an optional sign, one or more digits,
    then optionally a decimal point followed by one or more digits, and
    nothing else. *)
Definition numeric_text (s : string) : Prop :=
  exists sg whole frac : string,
    s = sg ++ whole ++ frac
    /\ (sg = "" \/ sg = "+" \/ sg = "-")
    /\ whole <> "" /\ all_digits whole = true
    /\ (frac = ""
        \/ exists f : string,
             frac = "." ++ f /\ f <> "" /\ all_digits f = true).

(** A digit or the decimal point. *)
Definition digit_or_point (c : ascii) : bool :=
  is_digit c || Ascii.eqb c "."%char.

(** The number that a run of decimal digits denotes, leading zeros
    allowed. *)
Definition decimal_value (s : string) : option Z :=
  option_map Z.of_uint (NilEmpty.uint_of_string s).

(** A character of the wire text of a date and time. *)
Definition wire_char (c : ascii) : bool :=
  is_digit c || Ascii.eqb c "-"%char || Ascii.eqb c "T"%char
  || Ascii.eqb c ":"%char || Ascii.eqb c "."%char.

(** Undoing the doubling of quotes: each pair of quotes becomes one. *)
Fixpoint collapse_quotes (s : string) : string :=
  match s with
  | EmptyString => EmptyString
  | String c t =>
      match t with
      | String c' t' =>
          if (Ascii.eqb c "'" && Ascii.eqb c' "'")%char
          then String "'"%char (collapse_quotes t')
          else String c (collapse_quotes t)
      | EmptyString => String c EmptyString
      end
  end.

(** The inverse of the quoted rendering: remove the delimiters [N'] and
    ['], then collapse the doubled quotes.  [None] when the delimiters are
    not there. *)
Definition unquote (lit : string) : option string :=
  match lit with
  | String "N" (String "'" body) =>
      if endswith body "'"%char
      then Some (collapse_quotes (drop_last body))
      else None
  | _ => None
  end.

(** Every character of [s] satisfies [p]. *)
Fixpoint all_chars (p : ascii -> bool) (s : string) : bool :=
  match s with
  | EmptyString => true
  | String c t => p c && all_chars p t
  end.

(** Number of occurrences of a character. *)
Fixpoint count_char (c : ascii) (s : string) : nat :=
  match s with
  | EmptyString => O
  | String x t => ((if Ascii.eqb x c then 1 else 0) + count_char c t)%nat
  end.

(** The fields of a date and time of the proleptic Gregorian calendar,
    years 1 to 9999, are in range. *)
Definition fields_ok (u : datetime) : Prop :=
  1 <= year u <= 9999 /\ 1 <= month u <= 12
  /\ 1 <= day u <= days_in_month (year u) (month u)
  /\ 0 <= hour u <= 23 /\ 0 <= minute u <= 59 /\ 0 <= second u <= 59
  /\ 0 <= microsecond u <= 999999.

(** A well-formed naive date and time. *)
Definition valid_naive (dt : datetime) : Prop :=
  fields_ok dt /\ tzinfo dt = None.

(** The instant a [datetime] denotes, in microseconds of UTC counted from
    the start of day 0: the wall-clock reading less the offset.  A naive
    value is read as UTC. *)
Definition instant_us (dt : datetime) : Z :=
  wall_us dt - match tzinfo dt with Some off => off | None => 0 end.

(** The wire text of a naive value: date, [T], time, and a fraction of
    exactly seven digits of which the last is the tenth of a microsecond. *)
Definition text7 (dt : datetime) : string :=
  fmt_digits 4 (year dt) ++ "-" ++ fmt_digits 2 (month dt) ++ "-"
  ++ fmt_digits 2 (day dt) ++ "T" ++ fmt_digits 2 (hour dt) ++ ":"
  ++ fmt_digits 2 (minute dt) ++ ":" ++ fmt_digits 2 (second dt) ++ "."
  ++ fmt_digits 7 (microsecond dt * 10).

(** The instants whose UTC reading a [datetime] can hold: from
    0001-01-01T00:00:00 to the last microsecond of 9999-12-31. *)
Definition representable (t : Z) : Prop :=
  86400000000 <= t < (MAXORDINAL + 1) * 86400000000.

(** [p] holds at the [n] integers from [z] on. *)
Fixpoint all_from (n : nat) (z : Z) (p : Z -> bool) : bool :=
  match n with
  | O => true
  | S k => if p z then all_from k (z + 1) p else false
  end.

(** For a day number of the first 400-year cycle: [ord2ymd] gives a
    well-formed date of the years 1 to 400 and [ymd2ord] takes it back. *)
Definition cycle_day_ok (n : Z) : bool :=
  let '(y, m, d) := ord2ymd n in
  (1 <=? y) && (y <=? 400) && (1 <=? m) && (m <=? 12)
  && (1 <=? d) && (d <=? days_in_month y m) && (ymd2ord y m d =? n).

(** [k] is the ceiling of the quotient [n / c]. *)
Definition is_ceil (k n c : Z) : Prop := (k - 1) * c < n <= k * c.

(** The elements of [l] at the positions [a], ..., [b - 1]. *)
Definition segment {A : Type} (l : list A) (a b : Z) : list A :=
  firstn (Z.to_nat (b - a)) (skipn (Z.to_nat a) l).

End Spec.

(** * Properties *)

(** ** The column set *)

Module ColumnsFacts.

Import Columns.

Lemma py_in_In : forall c l, py_in c l = true <-> In c l.
Proof.
  intros c l. unfold py_in. rewrite existsb_exists. split.
  - intros [x [Hx Heq]]. apply String.eqb_eq in Heq. now subst.
  - intros H. exists c. split; [assumption | apply String.eqb_refl].
Qed.

Lemma truthy_nonempty : forall s, truthy s = true <-> s <> "".
Proof.
  intros s. unfold truthy. rewrite negb_true_iff. apply String.eqb_neq.
Qed.

Lemma filter_not_eq_absent :
  forall (id : string) (l : list string),
    ~ In id (filter (fun c => negb (c =? id)%string) l).
Proof.
  intros id l H. apply filter_In in H. destruct H as [_ H].
  rewrite String.eqb_refl in H. discriminate.
Qed.

Lemma count_occ_head_absent :
  forall (id : string) (l : list string),
    ~ In id l -> count_occ string_dec (id :: l) id = 1%nat.
Proof.
  intros id l H. simpl. destruct (string_dec id id) as [_ | N].
  - f_equal. now apply count_occ_not_In.
  - now elim N.
Qed.

(** With the key designated, the result is the key followed by columns
    that differ from it. *)
Lemma build_columns_key_shape :
  forall csv_columns exclude id,
    id <> "" ->
    exists rest,
      build_columns csv_columns exclude (Some id) true = id :: rest
      /\ ~ In id rest
      /\ incl rest (or_nil csv_columns).
Proof.
  intros csv exclude id Hid. unfold build_columns.
  apply truthy_nonempty in Hid. rewrite Hid. simpl.
  set (cols := filter _ (or_nil csv)).
  assert (Hincl : incl cols (or_nil csv)) by apply incl_filter.
  destruct (py_in id cols) eqn:E; simpl.
  - eexists. split; [reflexivity | split].
    + apply filter_not_eq_absent.
    + intros x Hx. apply Hincl. apply filter_In in Hx. tauto.
  - exists cols. split; [reflexivity | split; [| assumption]].
    intros H. apply py_in_In in H. congruence.
Qed.

(** C7. When a non-empty key column is designated and generation is on,
    the column set returned by [build_columns] starts with the key and
    holds it exactly once, wherever the header had it, if at all. *)
Theorem build_columns_key_first_once :
  forall (csv_columns : option (list string)) (exclude : list string)
         (id : string),
    id <> "" ->
    let cols := build_columns csv_columns exclude (Some id) true in
    hd_error cols = Some id /\ count_occ string_dec cols id = 1%nat.
Proof.
  intros csv exclude id Hid cols. subst cols.
  destruct (build_columns_key_shape csv exclude id Hid) as [rest [E [Hn _]]].
  rewrite E. split; [reflexivity | now apply count_occ_head_absent].
Qed.

Lemma build_columns_key_first_once_witness :
  "Id" <> ""
  /\ build_columns (Some ["Name"; "Id"; "Id"; "RowVersion"]) ["RowVersion"]
       (Some "Id") true = ["Id"; "Name"]
  /\ hd_error (build_columns (Some ["Name"; "Id"; "Id"; "RowVersion"])
                 ["RowVersion"] (Some "Id") true) = Some "Id"
  /\ count_occ string_dec
       (build_columns (Some ["Name"; "Id"; "Id"; "RowVersion"])
          ["RowVersion"] (Some "Id") true) "Id" = 1%nat.
Proof.
  assert (H : "Id" <> "") by discriminate.
  split; [exact H | split; [reflexivity |]].
  exact (build_columns_key_first_once
           (Some ["Name"; "Id"; "Id"; "RowVersion"]) ["RowVersion"] "Id" H).
Defined.




(** C10. A header field whose name is empty is dropped, excluded or not:
    the empty name is never a member of the column set. *)
Theorem build_columns_no_empty_name :
  forall (csv_columns : option (list string)) (exclude : list string)
         (id_column : option string) (generate_uuid : bool),
    ~ In "" (build_columns csv_columns exclude id_column generate_uuid).
Proof.
  intros csv exclude id_column gen. unfold build_columns.
  set (cols := filter _ (or_nil csv)).
  assert (Hc : ~ In "" cols).
  { intros H. apply filter_In in H. destruct H as [_ H]. discriminate. }
  destruct id_column as [id |]; [| assumption].
  destruct (truthy id && gen) eqn:Et; [| assumption].
  apply andb_true_iff in Et. destruct Et as [Et _].
  apply truthy_nonempty in Et.
  destruct (py_in id cols); simpl.
  - intros [H | H]; [congruence |].
    apply filter_In in H. tauto.
  - intros [H | H]; [congruence | tauto].
Qed.

End ColumnsFacts.

(** ** Chunking *)

Module ChunkingFacts.

Import Chunking Spec.
Local Open Scope list_scope.

Lemma ceil_div_is_ceil :
  forall n c, 0 <= n -> 0 < c -> is_ceil (ceil_div n c) n c.
Proof.
  intros n c Hn Hc. unfold is_ceil, ceil_div.
  pose proof (Z.div_mod n c ltac:(lia)) as E.
  pose proof (Z.mod_pos_bound n c Hc) as B.
  destruct (n mod c =? 0) eqn:M.
  - apply Z.eqb_eq in M. nia.
  - apply Z.eqb_neq in M. nia.
Qed.

Lemma is_ceil_unique :
  forall k k' n c, 0 < c -> is_ceil k n c -> is_ceil k' n c -> k = k'.
Proof. unfold is_ceil. intros. nia. Qed.

Lemma ceil_div_nonneg : forall n c, 0 <= n -> 0 < c -> 0 <= ceil_div n c.
Proof.
  intros n c Hn Hc. pose proof (ceil_div_is_ceil n c Hn Hc) as H.
  unfold is_ceil in H. nia.
Qed.

Lemma range_length : forall n, List.length (range n) = Z.to_nat n.
Proof. intros. unfold range. now rewrite length_map, length_seq. Qed.

Lemma range_nth_error :
  forall n i, (i < Z.to_nat n)%nat ->
    nth_error (range n) i = Some (Z.of_nat i).
Proof.
  intros n i H. unfold range. rewrite nth_error_map.
  rewrite nth_error_seq. 
  destruct (Nat.ltb_spec i (Z.to_nat n)); [reflexivity | lia].
Qed.

Section Rows.

Variable row : Type.
Implicit Types (l rows : list row).

Lemma py_slice_segment :
  forall l a b, 0 <= a <= b -> b <= Z.of_nat (List.length l) ->
    py_slice l a b = segment l a b.
Proof.
  intros l a b Hab Hb. unfold py_slice, segment, slice_index.
  destruct (Z.ltb_spec a 0); [lia |].
  destruct (Z.ltb_spec b 0); [lia |].
  now rewrite !Z.min_l by lia.
Qed.

Lemma segment_length :
  forall l a b, 0 <= a <= b -> b <= Z.of_nat (List.length l) ->
    Z.of_nat (List.length (segment l a b)) = b - a.
Proof.
  intros l a b Hab Hb. unfold segment.
  rewrite length_firstn, length_skipn. lia.
Qed.

Lemma firstn_segment_app :
  forall l a b, 0 <= a <= b ->
    firstn (Z.to_nat a) l ++ segment l a b = firstn (Z.to_nat b) l.
Proof.
  intros l a b Hab. unfold segment.
  rewrite <- (firstn_skipn (Z.to_nat a) (firstn (Z.to_nat b) l)).
  rewrite firstn_firstn, Nat.min_l by lia. f_equal.
  rewrite skipn_firstn_comm. f_equal. lia.
Qed.

(** The chunk built at the loop index [i]. *)
Lemma partition_nth_error :
  forall c rows i,
    0 < c -> (i < List.length (partition c rows))%nat ->
    nth_error (partition c rows) i
    = Some (Z.of_nat i + 1,
            segment rows (Z.of_nat i * c)
              (Z.min ((Z.of_nat i + 1) * c) (Z.of_nat (List.length rows)))).
Proof.
  intros c rows i Hc Hi. unfold partition in *.
  rewrite length_map, range_length in Hi.
  rewrite nth_error_map, range_nth_error by assumption. simpl.
  set (N := Z.of_nat (List.length rows)) in *.
  pose proof (ceil_div_is_ceil N c ltac:(lia) Hc) as Hk.
  unfold is_ceil in Hk.
  assert (Hlt : Z.of_nat i * c < N) by nia.
  replace (Z.of_nat i * c + c) with ((Z.of_nat i + 1) * c) by lia.
  rewrite py_slice_segment; [reflexivity | lia | fold N; lia].
Qed.

Lemma partition_length :
  forall c rows, 0 < c ->
    Z.of_nat (List.length (partition c rows))
    = ceil_div (Z.of_nat (List.length rows)) c.
Proof.
  intros c rows Hc. unfold partition.
  rewrite length_map, range_length.
  pose proof (ceil_div_nonneg (Z.of_nat (List.length rows)) c ltac:(lia) Hc).
  lia.
Qed.

(** The chunks of the first [k] turns of the loop, put end to end, are the
    rows before position [min (k * c) N]. *)
Lemma concat_segments :
  forall c rows (k : nat), 0 < c ->
    List.concat (map (fun i =>
                   segment rows (i * c)
                     (Z.min ((i + 1) * c) (Z.of_nat (List.length rows))))
                (map Z.of_nat (seq 0 k)))
    = firstn (Z.to_nat (Z.min (Z.of_nat k * c) (Z.of_nat (List.length rows))))
        rows.
Proof.
  intros c rows k Hc. induction k as [| k IH].
  - simpl. now rewrite Z.min_l by lia.
  - rewrite seq_S, !map_app, concat_app, IH.
    cbn [map List.concat Nat.add]. rewrite app_nil_r.
    set (N := Z.of_nat (List.length rows)).
    replace (Z.of_nat (S k)) with (Z.of_nat k + 1) by lia.
    destruct (Z.le_gt_cases N (Z.of_nat k * c)) as [Hge | Hlt].
    + (* the rows are used up: the next segment is empty *)
      rewrite (Z.min_r (Z.of_nat k * c) N) by lia.
      rewrite !(Z.min_r ((Z.of_nat k + 1) * c) N) by nia.
      unfold segment. rewrite skipn_all2 by nia.
      now rewrite firstn_nil, app_nil_r.
    + rewrite (Z.min_l (Z.of_nat k * c) N) by lia.
      apply firstn_segment_app. nia.
Qed.

Lemma partition_concat :
  forall c rows, 0 < c -> List.concat (map snd (partition c rows)) = rows.
Proof.
  intros c rows Hc. unfold partition. rewrite map_map. simpl.
  set (N := Z.of_nat (List.length rows)).
  pose proof (ceil_div_is_ceil N c ltac:(lia) Hc) as Hk.
  pose proof (ceil_div_nonneg N c ltac:(lia) Hc) as H0.
  unfold is_ceil in Hk. unfold range.
  rewrite (map_ext_in _
             (fun i => segment rows (i * c) (Z.min ((i + 1) * c) N))).
  - subst N. rewrite concat_segments by assumption.
    apply firstn_all2. lia.
  - intros i Hi. apply in_map_iff in Hi. destruct Hi as [j [<- Hj]].
    apply in_seq in Hj.
    replace (Z.of_nat j * c + c) with ((Z.of_nat j + 1) * c) by lia.
    apply py_slice_segment; [nia | fold N; lia].
Qed.

Lemma main_positive :
  forall c rows, 0 < c -> main c rows = partition c rows.
Proof.
  intros c rows Hc. unfold main, effective_chunk_size.
  rewrite Z.max_r by lia.
  destruct (Z.eqb_spec (Z.of_nat (List.length rows)) 0) as [E | E];
    [| reflexivity].
  unfold partition. rewrite E. unfold ceil_div.
  rewrite Z.mod_0_l, Z.div_0_l by lia. reflexivity.
Qed.

End Rows.



(** C9. A configured chunk size of zero or less is not rejected: the
    effective chunk size is 1, and [main] goes on with chunks of one row,
    one per row and in order. *)
Theorem main_nonpositive_chunk_size :
  forall (row : Type) (chunk_size : Z) (rows : list row),
    chunk_size <= 0 ->
    effective_chunk_size chunk_size = 1
    /\ main chunk_size rows = main 1 rows
    /\ List.length (main chunk_size rows) = List.length rows
    /\ forall i r, nth_error rows i = Some r ->
         nth_error (main chunk_size rows) i = Some (Z.of_nat i + 1, [r]).
Proof.
  intros row c rows Hc.
  assert (He : effective_chunk_size c = 1)
    by (unfold effective_chunk_size; lia).
  assert (Hm : main c rows = main 1 rows).
  { unfold main. now rewrite He. }
  assert (HL : List.length (main 1 rows) = List.length rows).
  { rewrite main_positive by lia.
    pose proof (partition_length row 1 rows ltac:(lia)) as HL.
    pose proof (ceil_div_is_ceil (Z.of_nat (List.length rows)) 1
                  ltac:(lia) ltac:(lia)) as Hk.
    unfold is_ceil in Hk. lia. }
  split; [exact He | split; [exact Hm | split]].
  - now rewrite Hm.
  - intros i r Hr. rewrite Hm.
    assert (Hi : (i < List.length rows)%nat).
    { apply nth_error_Some. congruence. }
    rewrite main_positive by lia.
    rewrite partition_nth_error by (rewrite <- ?main_positive; lia).
    do 2 f_equal. unfold segment.
    rewrite Z.min_l by lia.
    replace (Z.to_nat ((Z.of_nat i + 1) * 1 - Z.of_nat i * 1)) with 1%nat
      by lia.
    replace (Z.to_nat (Z.of_nat i * 1)) with i by lia.
    clear - Hr. revert i Hr.
    induction rows as [| x xs IH]; intros [| i] Hr; simpl in *;
      try discriminate.
    + now injection Hr as ->.
    + now apply IH.
Qed.

Lemma main_nonpositive_chunk_size_witness :
  -5 <= 0
  /\ effective_chunk_size (-5) = 1
  /\ main (-5) ["a"; "b"; "c"] = [(1, ["a"]); (2, ["b"]); (3, ["c"])].
Proof.
  assert (H : -5 <= 0) by lia.
  destruct (main_nonpositive_chunk_size string (-5) ["a"; "b"; "c"] H)
    as [P1 _].
  split; [exact H | split; [exact P1 | reflexivity]].
Defined.

End ChunkingFacts.

(** ** Strings *)

Module StrFacts.

Import PyStr Spec.

Lemma append_nil_r : forall s : string, s ++ "" = s.
Proof. induction s as [| c s IH]; simpl; [reflexivity | now rewrite IH]. Qed.

Lemma append_assoc : forall a b c : string, (a ++ b) ++ c = a ++ (b ++ c).
Proof.
  induction a as [| x a IH]; intros; simpl; [reflexivity | now rewrite IH].
Qed.

Lemma append_eq_nil : forall a b : string, a ++ b = "" -> a = "" /\ b = "".
Proof. intros [| x a] b H; simpl in H; [now split | discriminate]. Qed.

Lemma append_eq_cons :
  forall (a b : string) c s,
    a ++ b = String c s ->
    (a = "" /\ b = String c s) \/ (exists a', a = String c a' /\ s = a' ++ b).
Proof.
  intros [| x a] b c s H; simpl in H.
  - now left.
  - injection H as -> <-. right. now exists a.
Qed.

Lemma length_append :
  forall a b : string,
    String.length (a ++ b) = (String.length a + String.length b)%nat.
Proof.
  induction a as [| x a IH]; intros; simpl; [reflexivity | now rewrite IH].
Qed.

Lemma all_chars_append :
  forall p a b, all_chars p (a ++ b) = all_chars p a && all_chars p b.
Proof.
  induction a as [| x a IH]; intros; simpl; [reflexivity |].
  now rewrite IH, andb_assoc.
Qed.

Lemma all_chars_weaken :
  forall (p q : ascii -> bool) s,
    (forall c, p c = true -> q c = true) ->
    all_chars p s = true -> all_chars q s = true.
Proof.
  intros p q s Hpq. induction s as [| c s IH]; simpl; [reflexivity |].
  intros H. apply andb_true_iff in H. destruct H as [H1 H2].
  now rewrite (Hpq _ H1), IH.
Qed.

Lemma all_digits_all_chars :
  forall s, Datetime.all_digits s = all_chars is_digit s.
Proof. induction s as [| c s IH]; simpl; [reflexivity | now rewrite IH]. Qed.

(** *** [strip] *)

Lemma rstrip_fixed :
  forall s, all_chars (fun c => negb (is_space c)) s = true -> rstrip s = s.
Proof.
  induction s as [| c s IH]; simpl; [reflexivity |].
  intros H. apply andb_true_iff in H. destruct H as [Hc Hs].
  rewrite (IH Hs). apply negb_true_iff in Hc. rewrite Hc.
  now destruct s.
Qed.

Lemma lstrip_fixed :
  forall s, all_chars (fun c => negb (is_space c)) s = true -> lstrip s = s.
Proof.
  intros [| c s]; simpl; [reflexivity |].
  intros H. apply andb_true_iff in H. destruct H as [Hc _].
  apply negb_true_iff in Hc. now rewrite Hc.
Qed.

Lemma strip_fixed :
  forall s, all_chars (fun c => negb (is_space c)) s = true -> strip s = s.
Proof.
  intros s H. unfold strip. rewrite (rstrip_fixed s H). now apply lstrip_fixed.
Qed.

(** *** [endswith] and [drop_last] *)

Lemma endswith_all_chars :
  forall p s c, all_chars p s = true -> endswith s c = true -> p c = true.
Proof.
  induction s as [| x s IH]; intros c Hall He; simpl in *; [discriminate |].
  apply andb_true_iff in Hall. destruct Hall as [Hx Hs].
  destruct s as [| y s'].
  - apply Ascii.eqb_eq in He. now subst.
  - now apply IH.
Qed.

Lemma endswith_append_char :
  forall s c, endswith (s ++ String c "") c = true.
Proof.
  induction s as [| x s IH]; intros c; simpl.
  - apply Ascii.eqb_refl.
  - specialize (IH c). destruct (s ++ String c "") eqn:E; [| exact IH].
    destruct s; discriminate.
Qed.

Lemma drop_last_append_char :
  forall s c, drop_last (s ++ String c "") = s.
Proof.
  induction s as [| x s IH]; intros c; simpl; [reflexivity |].
  specialize (IH c). destruct (s ++ String c "") eqn:E.
  - destruct s; discriminate.
  - now rewrite IH.
Qed.

(** *** Quotes *)

Lemma collapse_replace :
  forall s, collapse_quotes (replace "'"%char "''" s) = s.
Proof.
  induction s as [| c s IH]; [reflexivity |].
  cbn [replace]. destruct (Ascii.eqb_spec c "'"%char) as [-> | Hc].
  - cbn. now rewrite IH.
  - cbn [collapse_quotes].
    destruct (replace "'"%char "''" s) as [| c' t'] eqn:E.
    + cbn in IH. now rewrite <- IH.
    + apply Ascii.eqb_neq in Hc. rewrite Hc. cbn [andb].
      now rewrite IH.
Qed.

Lemma count_char_append :
  forall c a b,
    count_char c (a ++ b) = (count_char c a + count_char c b)%nat.
Proof.
  induction a as [| x a IH]; intros; simpl; [reflexivity |].
  rewrite IH. lia.
Qed.

Lemma count_replace_quotes :
  forall s,
    count_char "'"%char (replace "'"%char "''" s)
    = (2 * count_char "'"%char s)%nat.
Proof.
  induction s as [| c s IH]; [reflexivity |].
  cbn [replace count_char]. destruct (Ascii.eqb_spec c "'"%char) as [-> | Hc].
  - cbn. rewrite IH. lia.
  - cbn [count_char]. apply Ascii.eqb_neq in Hc. rewrite Hc, IH. lia.
Qed.

End StrFacts.

(** ** The derivative matcher decides the language of a pattern *)

Module ReFacts.

Import PyStr Re StrFacts.

Lemma lang_void : forall s, ~ lang Void s.
Proof. intros s H. inversion H. Qed.

Lemma lang_eps_inv : forall s, lang Eps s -> s = "".
Proof. intros s H. now inversion H. Qed.

Lemma lang_class_inv :
  forall p s, lang (Class p) s -> exists c, s = String c "" /\ p c = true.
Proof. intros p s H. inversion H; subst. now exists c. Qed.

Lemma lang_seq_inv :
  forall a b s,
    lang (Seq a b) s -> exists u v, s = u ++ v /\ lang a u /\ lang b v.
Proof. intros a b s H. inversion H; subst. now exists s0, t. Qed.

Lemma lang_alt_inv : forall a b s, lang (Alt a b) s -> lang a s \/ lang b s.
Proof. intros a b s H. inversion H; subst; [now left | now right]. Qed.

Lemma nullable_lang : forall r, nullable r = true <-> lang r "".
Proof.
  induction r as [| | p | a IHa b IHb | a IHa b IHb | a IHa]; simpl.
  - split; [discriminate | intros H; now apply lang_void in H].
  - split; [constructor | reflexivity].
  - split; [discriminate |].
    intros H. apply lang_class_inv in H. destruct H as [c [H _]].
    discriminate.
  - rewrite andb_true_iff, IHa, IHb. split.
    + intros [Ha Hb]. now apply (lang_seq a b "" "").
    + intros H. apply lang_seq_inv in H. destruct H as [u [v [E [Hu Hv]]]].
      symmetry in E. apply append_eq_nil in E. destruct E; now subst.
  - rewrite orb_true_iff, IHa, IHb. split.
    + intros [H | H]; [now apply lang_alt_l | now apply lang_alt_r].
    + apply lang_alt_inv.
  - split; [constructor | reflexivity].
Qed.

(** A non-empty word of a starred language starts with a non-empty word
    of the language. *)
Lemma lang_star_cons_inv :
  forall a c s,
    lang (Star a) (String c s) ->
    exists u v, s = u ++ v /\ lang a (String c u) /\ lang (Star a) v.
Proof.
  intros a c s H.
  remember (Star a) as r eqn:Er. remember (String c s) as w eqn:Ew.
  revert a c s Er Ew.
  induction H as [| | | | | a' | a' u v Hu _ Hv IHv]; intros a0 c0 s0 Er Ew;
    try discriminate.
  injection Er as ->.
  destruct u as [| x u].
  - simpl in Ew. now apply IHv.
  - simpl in Ew. injection Ew as -> <-. now exists u, v.
Qed.

Lemma deriv_lang :
  forall r c s, lang (deriv c r) s <-> lang r (String c s).
Proof.
  induction r as [| | p | a IHa b IHb | a IHa b IHb | a IHa];
    intros c s; simpl.
  - split; intros H; now apply lang_void in H.
  - split; intros H; [now apply lang_void in H |].
    apply lang_eps_inv in H. discriminate.
  - destruct (p c) eqn:Hp; split; intros H.
    + apply lang_eps_inv in H. subst. now constructor.
    + apply lang_class_inv in H. destruct H as [x [E _]].
      injection E as _ ->. constructor.
    + now apply lang_void in H.
    + apply lang_class_inv in H. destruct H as [x [E Hx]].
      injection E as -> _. congruence.
  - assert (Hl : lang (Seq (deriv c a) b) s -> lang (Seq a b) (String c s)).
    { intros H. apply lang_seq_inv in H. destruct H as [u [v [-> [Hu Hv]]]].
      apply IHa in Hu. now apply (lang_seq a b (String c u) v). }
    assert (Hr : lang (Seq a b) (String c s) ->
                 lang (Seq (deriv c a) b) s
                 \/ (lang a "" /\ lang (deriv c b) s)).
    { intros H. apply lang_seq_inv in H. destruct H as [u [v [E [Hu Hv]]]].
      symmetry in E. apply append_eq_cons in E.
      destruct E as [[-> ->] | [u' [-> ->]]].
      - right. split; [assumption | now apply IHb].
      - left. apply lang_seq; [now apply IHa | assumption]. }
    destruct (nullable a) eqn:Na; split; intros H.
    + apply lang_alt_inv in H. destruct H as [H | H]; [now apply Hl |].
      apply IHb in H. apply nullable_lang in Na.
      now apply (lang_seq a b "" (String c s)).
    + destruct (Hr H) as [H' | [_ H']];
        [now apply lang_alt_l | now apply lang_alt_r].
    + now apply Hl.
    + destruct (Hr H) as [H' | [H' _]]; [assumption |].
      apply nullable_lang in H'. congruence.
  - split; intros H.
    + apply lang_alt_inv in H.
      destruct H as [H | H];
        [apply lang_alt_l, IHa | apply lang_alt_r, IHb]; assumption.
    + apply lang_alt_inv in H.
      destruct H as [H | H];
        [apply lang_alt_l, IHa | apply lang_alt_r, IHb]; assumption.
  - split; intros H.
    + apply lang_seq_inv in H. destruct H as [u [v [-> [Hu Hv]]]].
      apply IHa in Hu. now apply (lang_star_cons a (String c u) v).
    + apply lang_star_cons_inv in H. destruct H as [u [v [-> [Hu Hv]]]].
      apply lang_seq; [now apply IHa | assumption].
Qed.

Theorem fullmatch_lang : forall s r, fullmatch r s = true <-> lang r s.
Proof.
  induction s as [| c s IH]; intros r; simpl.
  - apply nullable_lang.
  - rewrite IH. apply deriv_lang.
Qed.

(** On a text that does not end with a newline, [re.match] with [$] is a
    match of the whole text. *)
Lemma re_match_fullmatch :
  forall r s, endswith s "010"%char = false -> re_match r s = fullmatch r s.
Proof. intros r s H. unfold re_match. rewrite H. apply orb_false_r. Qed.

End ReFacts.

(** ** Characters and case *)

Module CaseFacts.

Import PyStr Spec StrFacts.

Lemma is_digit_ord : forall c, is_digit c = true <-> 48 <= ord c <= 57.
Proof. intros c. unfold is_digit. cbv zeta. lia. Qed.

Lemma ord_inj : forall c d, ord c = ord d -> c = d.
Proof.
  intros c d H. unfold ord in H. apply N2Z.inj in H.
  rewrite <- (ascii_N_embedding c), <- (ascii_N_embedding d). now rewrite H.
Qed.

Lemma digit_not_space : forall c, is_digit c = true -> is_space c = false.
Proof.
  intros c H. apply is_digit_ord in H. unfold is_space. cbv zeta. lia.
Qed.

Lemma digit_upper : forall c, is_digit c = true -> upper_char c = String c "".
Proof.
  intros c H. apply is_digit_ord in H. unfold upper_char. cbv zeta.
  replace ((97 <=? ord c) && (ord c <=? 122)) with false by lia.
  replace (ord c =? 223) with false by lia.
  replace ((224 <=? ord c) && (ord c <=? 254) && negb (ord c =? 247))
    with false by lia.
  reflexivity.
Qed.

Lemma upper_char_nonempty : forall c rest, upper_char c ++ rest <> "".
Proof.
  intros c rest. unfold upper_char. cbv zeta.
  repeat match goal with |- context [if ?b then _ else _] => destruct b end;
    discriminate.
Qed.

(** The capital of a character is N, U or L exactly when the character is
    that letter in one of its two cases. *)
Lemma upper_char_NUL :
  forall c X rest w,
    X = "N"%char \/ X = "U"%char \/ X = "L"%char ->
    (upper_char c ++ rest = String X w
     <-> lower_ascii c = lower_ascii X /\ rest = w).
Proof.
  intros c X rest w HX.
  assert (Hc : (upper_char c = String X "" /\ lower_ascii c = lower_ascii X)
               \/ (forall r, upper_char c ++ r <> String X w)
                  /\ lower_ascii c <> lower_ascii X).
  { destruct HX as [-> | [-> | ->]];
      destruct c as [[] [] [] [] [] [] [] []];
      first [ left; split; reflexivity
            | right; split;
              [intros r; cbv; discriminate | cbv; discriminate] ]. }
  destruct Hc as [[E1 E2] | [N1 N2]].
  - rewrite E1. simpl. split.
    + intros H. injection H as ->. now split.
    + intros [_ ->]. reflexivity.
  - split; [intros H; now apply N1 in H | intros [H _]; contradiction].
Qed.

Lemma upper_word_iff :
  forall w,
    all_chars
      (fun c => Ascii.eqb c "N" || Ascii.eqb c "U" || Ascii.eqb c "L")%char
      w = true ->
    forall v, upper v = w <-> lower v = lower w.
Proof.
  induction w as [| X w IH]; intros Hall v.
  - destruct v as [| c v]; simpl.
    + tauto.
    + split; [intros H; now apply upper_char_nonempty in H | discriminate].
  - simpl in Hall. apply andb_true_iff in Hall. destruct Hall as [HX Hw].
    assert (HX' : X = "N"%char \/ X = "U"%char \/ X = "L"%char).
    { rewrite !orb_true_iff, !Ascii.eqb_eq in HX. tauto. }
    destruct v as [| c v]; simpl.
    + split; discriminate.
    + rewrite (upper_char_NUL c X (upper v) w HX'), (IH Hw v).
      split.
      * intros [-> ->]. reflexivity.
      * intros H. injection H as H1 H2. now split.
Qed.

(** The script's test [v.upper() == "NULL"] is equality with NULL up to
    case. *)
Lemma upper_NULL_iff :
  forall v, upper v = "NULL" <-> eq_ignore_case v "NULL".
Proof. intros v. unfold eq_ignore_case. now apply upper_word_iff. Qed.

End CaseFacts.

(** ** The two patterns *)

Module PatternFacts.

Import PyStr Re Patterns Datetime Spec StrFacts ReFacts CaseFacts.

Lemma lang_chr_inv :
  forall c s, lang (Chr c) s -> s = String c "".
Proof.
  intros c s H. apply lang_class_inv in H. destruct H as [x [-> Hx]].
  apply Ascii.eqb_eq in Hx. now subst.
Qed.

Lemma lang_digit_inv :
  forall s, lang digit s -> exists c, s = String c "" /\ is_digit c = true.
Proof. intros s H. now apply lang_class_inv in H. Qed.

Lemma lang_star_digits :
  forall w, all_digits w = true -> lang (Star digit) w.
Proof.
  induction w as [| c w IH]; simpl; intros H; [constructor |].
  apply andb_true_iff in H. destruct H as [Hc Hw].
  apply (lang_star_cons digit (String c "") w); [now constructor | auto].
Qed.

Lemma lang_plus_digits :
  forall w, w <> "" -> all_digits w = true -> lang (Plus digit) w.
Proof.
  intros [| c w] Hne H; [congruence |]. simpl in H.
  apply andb_true_iff in H. destruct H as [Hc Hw].
  apply (lang_seq digit (Star digit) (String c "") w);
    [now constructor | now apply lang_star_digits].
Qed.

(** The pattern [NUMERIC_RE] accepts every numeric text. *)
Lemma numeric_text_lang : forall s, numeric_text s -> lang NUMERIC_RE s.
Proof.
  intros s [sg [whole [frac [-> [Hsg [Hne [Hd Hfrac]]]]]]].
  unfold NUMERIC_RE. apply lang_seq; [| apply lang_seq].
  - destruct Hsg as [-> | [-> | ->]];
      [apply lang_alt_r; constructor | | ];
      apply lang_alt_l; now constructor.
  - now apply lang_plus_digits.
  - destruct Hfrac as [-> | [f [-> [Hf Hfd]]]].
    + apply lang_alt_r. constructor.
    + apply lang_alt_l.
      apply (lang_seq (Chr ".") (Plus digit) "." f).
      * constructor. reflexivity.
      * now apply lang_plus_digits.
Qed.

(** A numeric text is a digit or a sign followed by digits and points. *)
Lemma numeric_text_shape :
  forall s,
    numeric_text s ->
    exists c t,
      s = String c t
      /\ (is_digit c = true \/ c = "+"%char \/ c = "-"%char)
      /\ all_chars digit_or_point t = true.
Proof.
  intros s [sg [whole [frac [-> [Hsg [Hne [Hd Hfrac]]]]]]].
  assert (Hw : all_chars digit_or_point whole = true).
  { rewrite all_digits_all_chars in Hd.
    apply (all_chars_weaken is_digit); [| assumption].
    intros c Hc. unfold digit_or_point. now rewrite Hc. }
  assert (Hf : all_chars digit_or_point frac = true).
  { destruct Hfrac as [-> | [f [-> [_ Hfd]]]]; [reflexivity |].
    simpl. rewrite all_digits_all_chars in Hfd.
    apply (all_chars_weaken is_digit); [| assumption].
    intros c Hc. unfold digit_or_point. now rewrite Hc. }
  assert (Hwf : all_chars digit_or_point (whole ++ frac) = true)
    by now rewrite all_chars_append, Hw, Hf.
  destruct Hsg as [-> | [-> | ->]].
  - destruct whole as [| c w]; [congruence |].
    exists c, (w ++ frac). simpl in *.
    apply andb_true_iff in Hd. destruct Hd as [Hc _].
    apply andb_true_iff in Hwf. destruct Hwf as [_ Hwf].
    split; [reflexivity | split; [now left | assumption]].
  - exists "+"%char, (whole ++ frac). simpl. auto.
  - exists "-"%char, (whole ++ frac). simpl. auto.
Qed.

(** Every text of the date pattern starts with four digits and a dash. *)
Lemma lang_date_prefix :
  forall s v,
    lang DATE_RE s ->
    exists c0 c1 c2 c3 rest,
      s ++ v = String c0 (String c1 (String c2 (String c3
                 (String "-" rest))))
      /\ is_digit c0 = true.
Proof.
  intros s v H. unfold DATE_RE in H. cbn [Rep] in H.
  apply lang_seq_inv in H. destruct H as [y [r1 [-> [Hy Hr1]]]].
  apply lang_seq_inv in Hy. destruct Hy as [d0 [y1 [-> [H0 Hy]]]].
  apply lang_seq_inv in Hy. destruct Hy as [d1 [y2 [-> [H1 Hy]]]].
  apply lang_seq_inv in Hy. destruct Hy as [d2 [y3 [-> [H2 Hy]]]].
  apply lang_seq_inv in Hy. destruct Hy as [d3 [y4 [-> [H3 Hy]]]].
  apply lang_eps_inv in Hy. subst y4.
  apply lang_seq_inv in Hr1. destruct Hr1 as [dash [r2 [-> [Hdash _]]]].
  apply lang_chr_inv in Hdash. subst dash.
  apply lang_digit_inv in H0, H1, H2, H3.
  destruct H0 as [c0 [-> Hc0]], H1 as [c1 [-> _]],
           H2 as [c2 [-> _]], H3 as [c3 [-> _]].
  exists c0, c1, c2, c3, (r2 ++ v). split; [reflexivity | assumption].
Qed.

Lemma lang_iso_prefix :
  forall s,
    lang ISO_DT_RE s ->
    exists c0 c1 c2 c3 rest,
      s = String c0 (String c1 (String c2 (String c3 (String "-" rest))))
      /\ is_digit c0 = true.
Proof.
  intros s H. unfold ISO_DT_RE in H.
  apply lang_seq_inv in H. destruct H as [u [v [-> [Hu _]]]].
  now apply lang_date_prefix.
Qed.

(** What [re.match] accepts with [ISO_DT_RE] starts with a digit. *)
Lemma re_match_iso_first_digit :
  forall v,
    re_match ISO_DT_RE v = true ->
    exists c t, v = String c t /\ is_digit c = true.
Proof.
  intros v H. unfold re_match in H. apply orb_true_iff in H.
  destruct H as [H | H].
  - apply fullmatch_lang, lang_iso_prefix in H.
    destruct H as [c0 [c1 [c2 [c3 [rest [-> Hc]]]]]]. eauto.
  - apply andb_true_iff in H. destruct H as [_ H].
    apply fullmatch_lang, lang_iso_prefix in H.
    destruct H as [c0 [c1 [c2 [c3 [rest [E Hc]]]]]].
    destruct v as [| x [| y v]]; simpl in E; try discriminate.
    injection E as -> _. eauto.
Qed.

(** A numeric text is not a text of [ISO_DT_RE]. *)
Lemma numeric_text_not_iso :
  forall s, numeric_text s -> fullmatch ISO_DT_RE s = false.
Proof.
  intros s Hn. destruct (fullmatch ISO_DT_RE s) eqn:E; [| reflexivity].
  apply fullmatch_lang, lang_iso_prefix in E.
  destruct E as [c0 [c1 [c2 [c3 [rest [-> _]]]]]].
  apply numeric_text_shape in Hn.
  destruct Hn as [c [t [E [_ Ht]]]]. injection E as <- <-.
  cbn [all_chars] in Ht. rewrite !andb_true_iff in Ht.
  destruct Ht as [_ [_ [_ [Hd _]]]]. vm_compute in Hd. discriminate Hd.
Qed.

End PatternFacts.

(** ** Literal inference: null, numbers and quoted text *)

Module LiteralFacts.

Import PyStr Re Patterns Datetime Literal Spec.
Import StrFacts ReFacts CaseFacts PatternFacts.

(** The first test of [to_sql_literal] is the null sentinel. *)
Lemma null_test_iff :
  forall s,
    ((strip s =? "") || (upper (strip s) =? "NULL"))%string = true
    <-> null_sentinel (Some s).
Proof.
  intros s. simpl.
  rewrite orb_true_iff, !String.eqb_eq, upper_NULL_iff. tauto.
Qed.

(** C3. An absent value, a value whose trimmed form is empty, and a value
    whose trimmed form is NULL in any mix of cases are all rendered as the
    keyword NULL. *)
Theorem to_sql_literal_null :
  forall val : option string,
    null_sentinel val -> to_sql_literal val = "NULL".
Proof.
  intros [s |] H; [| reflexivity].
  apply null_test_iff in H. unfold to_sql_literal. cbv zeta.
  now rewrite H.
Qed.

Lemma to_sql_literal_null_witness :
  null_sentinel (Some "  nUlL ")
  /\ to_sql_literal (Some "  nUlL ") = "NULL"
  /\ to_sql_literal (Some "   ") = "NULL"
  /\ to_sql_literal None = "NULL".
Proof.
  assert (H : null_sentinel (Some "  nUlL ")) by (right; reflexivity).
  split; [exact H | split; [| split]].
  - exact (to_sql_literal_null (Some "  nUlL ") H).
  - apply to_sql_literal_null. left. reflexivity.
  - apply to_sql_literal_null. exact I.
Defined.

Lemma digit_or_point_not_space :
  forall c, digit_or_point c = true -> negb (is_space c) = true.
Proof.
  intros c H. unfold digit_or_point in H. apply orb_true_iff in H.
  destruct H as [H | H].
  - now rewrite digit_not_space.
  - apply Ascii.eqb_eq in H. now subst.
Qed.

Lemma numeric_text_no_space :
  forall s,
    numeric_text s -> all_chars (fun c => negb (is_space c)) s = true.
Proof.
  intros s H. apply numeric_text_shape in H.
  destruct H as [c [t [-> [Hc Ht]]]]. simpl.
  apply andb_true_iff. split.
  - destruct Hc as [Hc | [-> | ->]]; [| reflexivity | reflexivity].
    now rewrite digit_not_space.
  - apply (all_chars_weaken digit_or_point); [| assumption].
    apply digit_or_point_not_space.
Qed.

Lemma numeric_text_not_null :
  forall s, numeric_text s -> ~ null_sentinel (Some s).
Proof.
  intros s H Hnull. pose proof (numeric_text_no_space s H) as Hsp.
  simpl in Hnull. rewrite (strip_fixed s Hsp) in Hnull.
  apply numeric_text_shape in H. destruct H as [c [t [-> [Hc _]]]].
  destruct Hnull as [Hnull | Hnull]; [discriminate |].
  apply upper_NULL_iff in Hnull. simpl in Hnull.
  destruct Hc as [Hc | [-> | ->]]; try discriminate.
  rewrite (digit_upper c Hc) in Hnull. simpl in Hnull.
  injection Hnull as -> _. discriminate.
Qed.

(** C4. A text that is an optional sign, one or more digits and then
    optionally a point and one or more digits, and nothing more, is
    returned as it is, without quotes. *)
Theorem to_sql_literal_numeric :
  forall s : string, numeric_text s -> to_sql_literal (Some s) = s.
Proof.
  intros s H.
  pose proof (numeric_text_no_space s H) as Hsp.
  pose proof (numeric_text_not_null s H) as Hnn.
  assert (Hnl : endswith s "010"%char = false).
  { destruct (endswith s "010"%char) eqn:E; [| reflexivity].
    apply (endswith_all_chars _ _ _ Hsp) in E. discriminate. }
  unfold to_sql_literal. cbv zeta. rewrite (strip_fixed s Hsp).
  destruct ((s =? "") || (upper s =? "NULL"))%string eqn:Hnull.
  - exfalso. apply Hnn. apply null_test_iff.
    now rewrite (strip_fixed s Hsp).
  - rewrite !re_match_fullmatch by assumption.
    rewrite (numeric_text_not_iso s H).
    apply numeric_text_lang, fullmatch_lang in H. now rewrite H.
Qed.

Lemma to_sql_literal_numeric_witness :
  numeric_text "-12.50" /\ to_sql_literal (Some "-12.50") = "-12.50".
Proof.
  assert (H : numeric_text "-12.50").
  { exists "-", "12", ".50". repeat split; try discriminate.
    - right. right. reflexivity.
    - right. exists "50". repeat split; discriminate. }
  split; [exact H | exact (to_sql_literal_numeric "-12.50" H)].
Defined.

(** C5, as stated, fails: the quoted literal is built from the trimmed
    value, so undoing it does not give back an input that had white space
    around it. *)
Lemma to_sql_literal_quoted_loses_padding :
  ~ null_sentinel (Some " a")
  /\ re_match ISO_DT_RE (strip " a") = false
  /\ re_match NUMERIC_RE (strip " a") = false
  /\ to_sql_literal (Some " a") = "N'a'"
  /\ unquote (to_sql_literal (Some " a")) = Some "a"
  /\ unquote (to_sql_literal (Some " a")) <> Some " a".
Proof.
  repeat split; try reflexivity.
  - intros [H | H]; discriminate H.
  - discriminate.
Qed.

(** C5, amended. A value that is not a null sentinel and whose trimmed
    form matches neither pattern is rendered as [N'...'] around the trimmed
    form with each quote doubled; removing the delimiters and collapsing
    the doubled quotes gives back the trimmed form, which is the input
    itself when the input has no white space around it. *)
Theorem to_sql_literal_quoted_roundtrip :
  forall s : string,
    ~ null_sentinel (Some s) ->
    re_match ISO_DT_RE (strip s) = false ->
    re_match NUMERIC_RE (strip s) = false ->
    to_sql_literal (Some s) = "N'" ++ replace "'"%char "''" (strip s) ++ "'"
    /\ count_char "'"%char (replace "'"%char "''" (strip s))
       = (2 * count_char "'"%char (strip s))%nat
    /\ unquote (to_sql_literal (Some s)) = Some (strip s)
    /\ (strip s = s -> unquote (to_sql_literal (Some s)) = Some s).
Proof.
  intros s Hnn Hiso Hnum.
  assert (E : to_sql_literal (Some s)
              = "N'" ++ replace "'"%char "''" (strip s) ++ "'").
  { unfold to_sql_literal. cbv zeta.
    destruct ((strip s =? "") || (upper (strip s) =? "NULL"))%string eqn:Hnull.
    - exfalso. apply Hnn. now apply null_test_iff.
    - now rewrite Hiso, Hnum. }
  assert (U : unquote (to_sql_literal (Some s)) = Some (strip s)).
  { rewrite E. cbn [append unquote].
    rewrite endswith_append_char, drop_last_append_char.
    now rewrite collapse_replace. }
  split; [exact E | split; [apply count_replace_quotes | split]].
  - exact U.
  - intros Hs. now rewrite U, Hs.
Qed.

Lemma to_sql_literal_quoted_roundtrip_witness :
  ~ null_sentinel (Some " O'Brien's ")
  /\ re_match ISO_DT_RE (strip " O'Brien's ") = false
  /\ re_match NUMERIC_RE (strip " O'Brien's ") = false
  /\ to_sql_literal (Some " O'Brien's ") = "N'O''Brien''s'"
  /\ unquote (to_sql_literal (Some " O'Brien's ")) = Some "O'Brien's".
Proof.
  assert (H1 : ~ null_sentinel (Some " O'Brien's "))
    by (intros [H | H]; discriminate H).
  assert (H2 : re_match ISO_DT_RE (strip " O'Brien's ") = false)
    by reflexivity.
  assert (H3 : re_match NUMERIC_RE (strip " O'Brien's ") = false)
    by reflexivity.
  destruct (to_sql_literal_quoted_roundtrip " O'Brien's " H1 H2 H3)
    as [P1 [_ [P3 _]]].
  split; [exact H1 | split; [exact H2 | split; [exact H3 | split]]].
  - exact P1.
  - exact P3.
Defined.

End LiteralFacts.

(** ** The calendar: [ord2ymd] inverts [ymd2ord] *)

Module CalendarFacts.

Import Datetime Spec.

Lemma all_from_spec :
  forall n z p,
    all_from n z p = true ->
    forall k, z <= k < z + Z.of_nat n -> p k = true.
Proof.
  induction n as [| n IH]; intros z p H k Hk; [lia |].
  simpl in H. destruct (p z) eqn:Hz; [| discriminate].
  destruct (Z.eq_dec k z) as [-> | Hne]; [assumption |].
  apply (IH (z + 1) p H). lia.
Qed.

(** The 146097 days of the years 1 to 400, checked one by one. *)
Lemma first_cycle_checked :
  all_from (Z.to_nat DI400Y) 1 cycle_day_ok = true.
Proof. vm_compute. reflexivity. Qed.

Lemma first_cycle :
  forall n, 1 <= n <= DI400Y -> cycle_day_ok n = true.
Proof.
  intros n Hn. apply (all_from_spec _ _ _ first_cycle_checked).
  unfold DI400Y in *. lia.
Qed.

(** Moving a year by whole 400-year cycles. *)
Lemma is_leap_shift : forall y q, is_leap (y + 400 * q) = is_leap y.
Proof.
  intros y q. unfold is_leap.
  replace ((y + 400 * q) mod 4) with (y mod 4)
    by (replace (400 * q) with (100 * q * 4) by lia;
        now rewrite Z.mod_add by lia).
  replace ((y + 400 * q) mod 100) with (y mod 100)
    by (replace (400 * q) with (4 * q * 100) by lia;
        now rewrite Z.mod_add by lia).
  replace ((y + 400 * q) mod 400) with (y mod 400)
    by (replace (400 * q) with (q * 400) by lia;
        now rewrite Z.mod_add by lia).
  reflexivity.
Qed.

Lemma days_before_year_shift :
  forall y q, days_before_year (y + 400 * q) = days_before_year y + DI400Y * q.
Proof.
  intros y q. unfold days_before_year, DI400Y. cbv zeta.
  replace (y + 400 * q - 1) with (y - 1 + 400 * q) by lia.
  replace ((y - 1 + 400 * q) / 4) with ((y - 1) / 4 + 100 * q)
    by (replace (400 * q) with (100 * q * 4) by lia;
        now rewrite Z.div_add by lia).
  replace ((y - 1 + 400 * q) / 100) with ((y - 1) / 100 + 4 * q)
    by (replace (400 * q) with (4 * q * 100) by lia;
        now rewrite Z.div_add by lia).
  replace ((y - 1 + 400 * q) / 400) with ((y - 1) / 400 + q)
    by (replace (400 * q) with (q * 400) by lia;
        now rewrite Z.div_add by lia).
  lia.
Qed.

Lemma days_in_month_shift :
  forall y q m, days_in_month (y + 400 * q) m = days_in_month y m.
Proof. intros. unfold days_in_month. now rewrite is_leap_shift. Qed.

Lemma ymd2ord_shift :
  forall y q m d, ymd2ord (y + 400 * q) m d = ymd2ord y m d + DI400Y * q.
Proof.
  intros. unfold ymd2ord, days_before_month.
  rewrite days_before_year_shift, is_leap_shift. lia.
Qed.

Lemma ord2ymd_shift :
  forall q r,
    0 <= r < DI400Y ->
    ord2ymd (DI400Y * q + r + 1)
    = let '(y, m, d) := ord2ymd (r + 1) in (y + 400 * q, m, d).
Proof.
  intros q r Hr. unfold ord2ymd. cbv zeta.
  replace (DI400Y * q + r + 1 - 1) with (r + q * DI400Y) by lia.
  replace (r + 1 - 1) with r by lia.
  rewrite Z.div_add, Z.mod_add by (unfold DI400Y; lia).
  rewrite (Z.div_small r DI400Y), (Z.mod_small r DI400Y) by lia.
  repeat match goal with
         | |- context [if ?b then _ else _] => destruct b
         end;
    f_equal; try f_equal; lia.
Qed.

Lemma days_before_year_mono :
  forall y, 10000 <= y -> MAXORDINAL <= days_before_year y.
Proof.
  intros y Hy. unfold days_before_year, MAXORDINAL. cbv zeta.
  Z.div_mod_to_equations. lia.
Qed.

(** [ord2ymd] on the day numbers of the years 1 to 9999. *)
Theorem ord2ymd_ymd2ord :
  forall n y m d,
    1 <= n <= MAXORDINAL ->
    ord2ymd n = (y, m, d) ->
    1 <= y <= 9999 /\ 1 <= m <= 12 /\ 1 <= d <= days_in_month y m
    /\ ymd2ord y m d = n.
Proof.
  intros n y m d Hn E.
  set (q := (n - 1) / DI400Y). set (r := (n - 1) mod DI400Y).
  assert (Hq : n = DI400Y * q + r + 1).
  { pose proof (Z.div_mod (n - 1) DI400Y ltac:(unfold DI400Y; lia)).
    subst q r. lia. }
  assert (Hr : 0 <= r < DI400Y)
    by (apply Z.mod_pos_bound; unfold DI400Y; lia).
  assert (Hq0 : 0 <= q) by (apply Z.div_pos; unfold DI400Y; lia).
  rewrite Hq, (ord2ymd_shift q r Hr) in E.
  pose proof (first_cycle (r + 1) ltac:(lia)) as C.
  unfold cycle_day_ok in C.
  destruct (ord2ymd (r + 1)) as [[y0 m0] d0].
  assert (Ey : y = y0 + 400 * q) by congruence.
  assert (Em : m = m0) by congruence.
  assert (Ed : d = d0) by congruence.
  subst y m d. clear E.
  rewrite !andb_true_iff in C.
  destruct C as [[[[[[C1 C2] C3] C4] C5] C6] C7].
  apply Z.leb_le in C1, C2, C3, C4, C5, C6. apply Z.eqb_eq in C7.
  rewrite days_in_month_shift, ymd2ord_shift.
  assert (Hord : ymd2ord y0 m0 d0 + DI400Y * q = n) by lia.
  repeat split; try lia.
  destruct (Z.le_gt_cases (y0 + 400 * q) 9999) as [Hle | Hgt];
    [assumption | exfalso].
  pose proof (days_before_year_mono (y0 + 400 * q) ltac:(lia)) as Hm.
  rewrite days_before_year_shift in Hm.
  unfold ymd2ord, days_before_month in Hord.
  assert (0 <= nth (Z.to_nat m0) DAYS_BEFORE_MONTH 0).
  { assert (Hm0 : m0 = 1 \/ m0 = 2 \/ m0 = 3 \/ m0 = 4 \/ m0 = 5 \/ m0 = 6
                 \/ m0 = 7 \/ m0 = 8 \/ m0 = 9 \/ m0 = 10 \/ m0 = 11
                 \/ m0 = 12) by lia.
    repeat (destruct Hm0 as [-> | Hm0]; [simpl; lia |]).
    subst m0. simpl. lia. }
  destruct ((2 <? m0) && is_leap y0); lia.
Qed.

End CalendarFacts.

(** ** Arithmetic on [datetime] values *)

Module DatetimeFacts.

Import Datetime Spec CalendarFacts.

Lemma clock_split :
  forall total,
    let rest := total mod 86400000000 in
    let secs := rest / 1000000 in
    let us := rest mod 1000000 in
    let h := secs / 3600 in
    let mi := (secs mod 3600) / 60 in
    let s := (secs mod 3600) mod 60 in
    0 <= h <= 23 /\ 0 <= mi <= 59 /\ 0 <= s <= 59 /\ 0 <= us <= 999999
    /\ ((total / 86400000000 * 86400 + h * 3600 + mi * 60 + s) * 1000000)
       + us = total.
Proof. intros total. cbv zeta. Z.div_mod_to_equations. lia. Qed.

Lemma add_us_spec :
  forall dt delta u,
    add_us dt delta = Some u ->
    fields_ok u /\ wall_us u = wall_us dt + delta /\ tzinfo u = tzinfo dt.
Proof.
  intros dt delta u H. unfold add_us in H. cbv zeta in H.
  set (total := wall_us dt + delta) in *.
  destruct ((0 <? total / 86400000000)
            && (total / 86400000000 <=? MAXORDINAL)) eqn:R;
    [| discriminate].
  apply andb_true_iff in R. destruct R as [R1 R2].
  apply Z.ltb_lt in R1. apply Z.leb_le in R2.
  destruct (ord2ymd (total / 86400000000)) as [[y m] d] eqn:E.
  apply ord2ymd_ymd2ord in E; [| lia].
  destruct E as [Hy [Hm [Hd Hord]]].
  pose proof (clock_split total) as C. cbv zeta in C.
  destruct C as [Ch [Cmi [Cs [Cus Ctot]]]].
  assert (Eu : u = mkdatetime y m d
                 (total mod 86400000000 / 1000000 / 3600)
                 ((total mod 86400000000 / 1000000) mod 3600 / 60)
                 (((total mod 86400000000 / 1000000) mod 3600) mod 60)
                 ((total mod 86400000000) mod 1000000) (tzinfo dt))
    by congruence.
  clear H. subst u. unfold fields_ok, wall_us. cbn [year month day hour
    minute second microsecond tzinfo].
  rewrite Hord. repeat split; try lia.
Qed.

Lemma add_us_some :
  forall dt delta,
    representable (wall_us dt + delta) ->
    exists u, add_us dt delta = Some u.
Proof.
  intros dt delta [Hlo Hhi]. unfold add_us. cbv zeta.
  set (total := wall_us dt + delta) in *.
  assert (R : (0 <? total / 86400000000)
              && (total / 86400000000 <=? MAXORDINAL) = true).
  { unfold MAXORDINAL in *. apply andb_true_iff.
    rewrite Z.ltb_lt, Z.leb_le. Z.div_mod_to_equations. lia. }
  rewrite R. destruct (ord2ymd (total / 86400000000)) as [[y m] d].
  eauto.
Qed.

(** Looks a given month up in the tables. *)
Ltac month_table :=
  repeat match goal with
         | |- context [Z.to_nat ?k] =>
             let v := eval vm_compute in (Z.to_nat k) in
             change (Z.to_nat k) with v in *
         end;
  cbn [nth DAYS_IN_MONTH DAYS_BEFORE_MONTH Z.eqb Z.ltb Z.compare Pos.eqb
       Pos.compare Pos.compare_cont andb] in *.

Lemma month_days_bound :
  forall y m d,
    1 <= m <= 12 -> 1 <= d <= days_in_month y m ->
    1 <= days_before_month y m + d <= (if is_leap y then 366 else 365).
Proof.
  intros y m d Hm Hd. unfold days_before_month, days_in_month in *.
  assert (Hm0 : m = 1 \/ m = 2 \/ m = 3 \/ m = 4 \/ m = 5 \/ m = 6
                \/ m = 7 \/ m = 8 \/ m = 9 \/ m = 10 \/ m = 11 \/ m = 12)
    by lia.
  destruct (is_leap y);
    repeat (destruct Hm0 as [Hm0 | Hm0]; [subst m; month_table; lia |]);
    subst m; month_table; lia.
Qed.

Lemma fields_ok_representable :
  forall u, fields_ok u -> representable (wall_us u).
Proof.
  intros u [Hy [Hm [Hd [Hh [Hmi [Hs Hus]]]]]].
  unfold representable, wall_us, MAXORDINAL.
  pose proof (month_days_bound _ _ _ Hm Hd) as Hmd.
  assert (Hord : 1 <= ymd2ord (year u) (month u) (day u) <= 3652059).
  { unfold ymd2ord.
    destruct (Z.eq_dec (year u) 9999) as [E | E].
    - rewrite E in *. change (is_leap 9999) with false in Hmd.
      change (days_before_year 9999) with 3651694. lia.
    - assert (0 <= days_before_year (year u) <= 3651329).
      { unfold days_before_year. cbv zeta. Z.div_mod_to_equations. lia. }
      destruct (is_leap (year u)); lia. }
  lia.
Qed.

(** Conversion of an aware value to UTC: it succeeds exactly on the
    representable instants, keeps the instant and gives ranged fields. *)
Lemma astimezone_utc_spec :
  forall dt off,
    representable (wall_us dt - off) ->
    exists u,
      astimezone_utc dt off = Some u
      /\ fields_ok u /\ wall_us u = wall_us dt - off.
Proof.
  intros dt off Hr. unfold astimezone_utc.
  destruct (add_us_some dt (- off)) as [u1 E1].
  { now replace (wall_us dt + - off) with (wall_us dt - off) by lia. }
  rewrite E1. apply add_us_spec in E1. destruct E1 as [F1 [W1 _]].
  assert (W1' : wall_us (replace_tzinfo u1 (Some 0)) = wall_us u1)
    by reflexivity.
  destruct (add_us_some (replace_tzinfo u1 (Some 0)) 0) as [u2 E2].
  { rewrite W1', Z.add_0_r. now apply fields_ok_representable. }
  exists u2. split; [exact E2 |].
  apply add_us_spec in E2. destruct E2 as [F2 [W2 _]].
  split; [exact F2 | lia].
Qed.

Lemma astimezone_utc_overflow :
  forall dt off,
    ~ representable (wall_us dt - off) -> astimezone_utc dt off = None.
Proof.
  intros dt off Hr. unfold astimezone_utc.
  destruct (add_us dt (- off)) as [u1 |] eqn:E1; [| reflexivity].
  exfalso. apply Hr. apply add_us_spec in E1. destruct E1 as [F1 [W1 _]].
  replace (wall_us dt - off) with (wall_us u1) by lia.
  now apply fields_ok_representable.
Qed.

End DatetimeFacts.

(** ** Formatting *)

Module FormatFacts.

Import PyStr Datetime Spec StrFacts CaseFacts.

Lemma digit_char_is_digit :
  forall d, 0 <= d <= 9 -> is_digit (digit_char d) = true.
Proof.
  intros d Hd.
  assert (H : d = 0 \/ d = 1 \/ d = 2 \/ d = 3 \/ d = 4 \/ d = 5 \/ d = 6
              \/ d = 7 \/ d = 8 \/ d = 9) by lia.
  repeat (destruct H as [-> | H]; [reflexivity |]). now subst.
Qed.

Lemma fmt_digits_all_digits :
  forall n x, all_chars is_digit (fmt_digits n x) = true.
Proof.
  induction n as [| n IH]; intros x; [reflexivity |].
  cbn [fmt_digits]. rewrite all_chars_append, IH. cbn [all_chars andb].
  rewrite digit_char_is_digit; [reflexivity |].
  pose proof (Z.mod_pos_bound x 10 ltac:(lia)). lia.
Qed.

Lemma fmt_digits_length :
  forall n x, String.length (fmt_digits n x) = n.
Proof.
  induction n as [| n IH]; intros x; [reflexivity |].
  cbn [fmt_digits]. rewrite length_append, IH. simpl. lia.
Qed.

Lemma fmt_digits_no_dot :
  forall n x,
    all_chars (fun c => negb (Ascii.eqb c "."%char)) (fmt_digits n x) = true.
Proof.
  intros n x. apply (all_chars_weaken is_digit).
  - intros c Hc. destruct (Ascii.eqb_spec c "."%char) as [-> | _];
      [discriminate | reflexivity].
  - apply fmt_digits_all_digits.
Qed.

(** *** [split] *)

Lemma split_no_sep :
  forall sep s,
    all_chars (fun c => negb (Ascii.eqb c sep)) s = true ->
    split sep s = [s].
Proof.
  intros sep. induction s as [| c s IH]; simpl; intros H; [reflexivity |].
  apply andb_true_iff in H. destruct H as [Hc Hs].
  apply negb_true_iff in Hc. now rewrite Hc, (IH Hs).
Qed.

Lemma split_append_no_sep :
  forall sep a rest h r,
    all_chars (fun c => negb (Ascii.eqb c sep)) a = true ->
    split sep rest = h :: r ->
    split sep (a ++ rest) = (a ++ h) :: r.
Proof.
  intros sep. induction a as [| c a IH]; simpl; intros rest h r H E;
    [assumption |].
  apply andb_true_iff in H. destruct H as [Hc Ha].
  apply negb_true_iff in Hc. now rewrite Hc, (IH rest h r Ha E).
Qed.

Lemma substring_0_length :
  forall s, substring 0 (String.length s) s = s.
Proof. induction s as [| c s IH]; simpl; [reflexivity | now rewrite IH]. Qed.

(** The text before the point in [strftime] and [text7]. *)
Lemma no_dot_seconds :
  forall y m d h mi s,
    all_chars (fun c => negb (Ascii.eqb c "."%char))
      (fmt_digits 4 y ++ "-" ++ fmt_digits 2 m ++ "-" ++ fmt_digits 2 d
       ++ "T" ++ fmt_digits 2 h ++ ":" ++ fmt_digits 2 mi ++ ":"
       ++ fmt_digits 2 s) = true.
Proof.
  intros. rewrite !all_chars_append, !fmt_digits_no_dot. reflexivity.
Qed.

(** What lines 41-44 make of the value [w]. *)
Lemma strftime_seven_digits :
  forall w,
    match split "."%char (strftime w) with
    | [sec; frac] => sec ++ "." ++ slice (frac ++ "0") 0 7
    | _ => strftime w
    end = text7 w.
Proof.
  intros w. unfold strftime, text7.
  set (y := fmt_digits 4 (year w)). set (m := fmt_digits 2 (month w)).
  set (d := fmt_digits 2 (day w)). set (h := fmt_digits 2 (hour w)).
  set (mi := fmt_digits 2 (minute w)). set (s := fmt_digits 2 (second w)).
  set (f := fmt_digits 6 (microsecond w)).
  set (sec := y ++ "-" ++ m ++ "-" ++ d ++ "T" ++ h ++ ":" ++ mi ++ ":" ++ s).
  assert (E : y ++ "-" ++ m ++ "-" ++ d ++ "T" ++ h ++ ":" ++ mi ++ ":"
              ++ s ++ "." ++ f = sec ++ "." ++ f).
  { subst sec. now rewrite !append_assoc. }
  rewrite E.
  assert (Hsplit : split "."%char (sec ++ "." ++ f) = [sec; f]).
  { rewrite (split_append_no_sep "."%char sec ("." ++ f) "" [f]).
    - now rewrite append_nil_r.
    - apply no_dot_seconds.
    - cbn [append split Ascii.eqb Bool.eqb]. f_equal.
      apply split_no_sep, fmt_digits_no_dot. }
  rewrite Hsplit.
  assert (Hslice : slice (f ++ "0") 0 7 = f ++ "0").
  { unfold slice. cbn [Nat.sub].
    replace 7%nat with (String.length (f ++ "0"))
      by (subst f; rewrite length_append, fmt_digits_length; reflexivity).
    apply substring_0_length. }
  rewrite Hslice.
  assert (E7 : fmt_digits 7 (microsecond w * 10) = f ++ "0").
  { change (fmt_digits 7 (microsecond w * 10))
      with (fmt_digits 6 (microsecond w * 10 / 10)
            ++ String (digit_char ((microsecond w * 10) mod 10)) "").
    rewrite Z.div_mul, Z.mod_mul by lia. reflexivity. }
  rewrite E7. subst sec. now rewrite !append_assoc.
Qed.

Lemma text7_shape :
  forall w,
    exists sec frac,
      text7 w = sec ++ "." ++ frac
      /\ String.length sec = 19%nat
      /\ String.length frac = 7%nat
      /\ all_digits frac = true.
Proof.
  intros w.
  exists (fmt_digits 4 (year w) ++ "-" ++ fmt_digits 2 (month w) ++ "-"
          ++ fmt_digits 2 (day w) ++ "T" ++ fmt_digits 2 (hour w) ++ ":"
          ++ fmt_digits 2 (minute w) ++ ":" ++ fmt_digits 2 (second w)),
         (fmt_digits 7 (microsecond w * 10)).
  split; [| split; [| split]].
  - unfold text7. now rewrite !append_assoc.
  - rewrite !length_append, !fmt_digits_length. reflexivity.
  - apply fmt_digits_length.
  - rewrite all_digits_all_chars. apply fmt_digits_all_digits.
Qed.

Lemma text7_length : forall w, String.length (text7 w) = 27%nat.
Proof.
  intros w. unfold text7. rewrite !length_append, !fmt_digits_length.
  reflexivity.
Qed.

End FormatFacts.

(** ** Reading back what is written *)

Module ParseFacts.

Import PyStr Datetime Spec StrFacts CaseFacts DatetimeFacts FormatFacts.

Lemma digit_val_char :
  forall d, 0 <= d <= 9 -> digit_val (digit_char d) = Some d.
Proof.
  intros d Hd.
  assert (H : d = 0 \/ d = 1 \/ d = 2 \/ d = 3 \/ d = 4 \/ d = 5 \/ d = 6
              \/ d = 7 \/ d = 8 \/ d = 9) by lia.
  repeat (destruct H as [-> | H]; [reflexivity |]). now subst.
Qed.

Lemma digit_val_is_digit :
  forall c d, digit_val c = Some d -> is_digit c = true.
Proof.
  intros c d. unfold digit_val.
  destruct (is_digit c); [reflexivity | discriminate].
Qed.

Lemma digit_eqb_false :
  forall c x d,
    digit_val c = Some d -> is_digit x = false -> Ascii.eqb c x = false.
Proof.
  intros c x d Hc Hx. apply digit_val_is_digit in Hc.
  destruct (Ascii.eqb_spec c x) as [-> | _]; [congruence | reflexivity].
Qed.

(** Evaluates slices, lengths and comparisons of texts whose shape is
    known. *)
Ltac str_eval :=
  cbn [slice slice_from substring String.length Nat.sub Nat.add Nat.ltb
       Nat.leb Nat.eqb String.eqb Ascii.eqb Bool.eqb andb orb negb nth
       FRACTION_CORRECTION find endswith].

(** Rewrites with what is known of the digit characters. *)
Ltac use_digits :=
  repeat match goal with
    | H : digit_val ?c = Some _ |- context [digit_val ?c] => rewrite H
    | H : digit_val ?c = Some _ |- context [is_digit ?c] =>
        rewrite (digit_val_is_digit _ _ H)
    | H : digit_val ?c = Some _ |- context [Ascii.eqb ?c ?x] =>
        rewrite (digit_eqb_false c x _ H eq_refl)
    end.

Lemma parse_int_2 :
  forall a b va vb,
    digit_val a = Some va -> digit_val b = Some vb ->
    parse_int (String a (String b "")) = Some (va * 10 + vb).
Proof.
  intros. unfold parse_int. cbn [int_of_digits]. use_digits.
  cbn [int_of_digits]. use_digits. f_equal.
Qed.

Lemma parse_int_4 :
  forall a b c d va vb vc vd,
    digit_val a = Some va -> digit_val b = Some vb ->
    digit_val c = Some vc -> digit_val d = Some vd ->
    parse_int (String a (String b (String c (String d ""))))
    = Some (((va * 10 + vb) * 10 + vc) * 10 + vd).
Proof.
  intros. unfold parse_int.
  repeat (cbn [int_of_digits]; use_digits). f_equal.
Qed.

Lemma parse_int_6 :
  forall a b c d e f va vb vc vd ve vf,
    digit_val a = Some va -> digit_val b = Some vb ->
    digit_val c = Some vc -> digit_val d = Some vd ->
    digit_val e = Some ve -> digit_val f = Some vf ->
    parse_int (String a (String b (String c (String d (String e
                (String f ""))))))
    = Some (((((va * 10 + vb) * 10 + vc) * 10 + vd) * 10 + ve) * 10 + vf).
Proof.
  intros. unfold parse_int.
  repeat (cbn [int_of_digits]; use_digits). f_equal.
Qed.

(** The parser on a text of the shape [YYYY-MM-DDTHH:MM:SS.fffffff] whose
    digits are known. *)
Section Reparse.

Variables y0 y1 y2 y3 m0 m1 d0 d1 h0 h1 i0 i1 s0 s1 f0 f1 f2 f3 f4 f5 f6
  : ascii.
Variables vy0 vy1 vy2 vy3 vm0 vm1 vd0 vd1 vh0 vh1 vi0 vi1 vs0 vs1
          vf0 vf1 vf2 vf3 vf4 vf5 vf6 : Z.
Hypothesis Hy0 : digit_val y0 = Some vy0.
Hypothesis Hy1 : digit_val y1 = Some vy1.
Hypothesis Hy2 : digit_val y2 = Some vy2.
Hypothesis Hy3 : digit_val y3 = Some vy3.
Hypothesis Hm0 : digit_val m0 = Some vm0.
Hypothesis Hm1 : digit_val m1 = Some vm1.
Hypothesis Hd0 : digit_val d0 = Some vd0.
Hypothesis Hd1 : digit_val d1 = Some vd1.
Hypothesis Hh0 : digit_val h0 = Some vh0.
Hypothesis Hh1 : digit_val h1 = Some vh1.
Hypothesis Hi0 : digit_val i0 = Some vi0.
Hypothesis Hi1 : digit_val i1 = Some vi1.
Hypothesis Hs0 : digit_val s0 = Some vs0.
Hypothesis Hs1 : digit_val s1 = Some vs1.
Hypothesis Hf0 : digit_val f0 = Some vf0.
Hypothesis Hf1 : digit_val f1 = Some vf1.
Hypothesis Hf2 : digit_val f2 = Some vf2.
Hypothesis Hf3 : digit_val f3 = Some vf3.
Hypothesis Hf4 : digit_val f4 = Some vf4.
Hypothesis Hf5 : digit_val f5 = Some vf5.
Hypothesis Hf6 : digit_val f6 = Some vf6.

Let dstr : string :=
  String y0 (String y1 (String y2 (String y3 (String "-" (String m0
  (String m1 (String "-" (String d0 (String d1 ""))))))))).

Let tstr : string :=
  String h0 (String h1 (String ":" (String i0 (String i1 (String ":"
  (String s0 (String s1 (String "." (String f0 (String f1 (String f2
  (String f3 (String f4 (String f5 (String f6 ""))))))))))))))).

Lemma parse_date_chars :
  parse_isoformat_date dstr
  = Some (((vy0 * 10 + vy1) * 10 + vy2) * 10 + vy3, vm0 * 10 + vm1,
          vd0 * 10 + vd1).
Proof.
  unfold parse_isoformat_date, dstr. str_eval.
  rewrite (parse_int_4 _ _ _ _ _ _ _ _ Hy0 Hy1 Hy2 Hy3).
  rewrite (parse_int_2 _ _ _ _ Hm0 Hm1), (parse_int_2 _ _ _ _ Hd0 Hd1).
  reflexivity.
Qed.

Lemma find_tz_pos_chars : find_tz_pos tstr = O.
Proof.
  unfold find_tz_pos, tstr. repeat (str_eval; use_digits). reflexivity.
Qed.

Lemma parse_fraction_chars :
  parse_fraction tstr 8
  = Some (((((vf0 * 10 + vf1) * 10 + vf2) * 10 + vf3) * 10 + vf4) * 10 + vf5).
Proof.
  unfold parse_fraction, tstr. cbv zeta. str_eval.
  rewrite (parse_int_6 _ _ _ _ _ _ _ _ _ _ _ _ Hf0 Hf1 Hf2 Hf3 Hf4 Hf5).
  cbn [all_digits]. use_digits. reflexivity.
Qed.

Lemma parse_clock_chars :
  parse_hh_mm_ss_ff tstr
  = Some (vh0 * 10 + vh1, vi0 * 10 + vi1, vs0 * 10 + vs1,
          ((((vf0 * 10 + vf1) * 10 + vf2) * 10 + vf3) * 10 + vf4) * 10 + vf5).
Proof.
  unfold parse_hh_mm_ss_ff. cbv zeta.
  change (String.length tstr) with 16%nat.
  change (slice tstr 2 3) with ":".
  change (slice tstr 0 2) with (String h0 (String h1 "")).
  rewrite (parse_int_2 _ _ _ _ Hh0 Hh1).
  cbn [String.eqb Ascii.eqb Bool.eqb andb negb Nat.add Nat.sub Nat.ltb
       Nat.leb].
  change (slice tstr 3 5) with (String i0 (String i1 "")).
  rewrite (parse_int_2 _ _ _ _ Hi0 Hi1).
  change (slice tstr 5 6) with ":".
  cbn [String.eqb Ascii.eqb Bool.eqb andb negb Nat.add Nat.sub Nat.ltb
       Nat.leb].
  change (slice tstr 6 8) with (String s0 (String s1 "")).
  rewrite (parse_int_2 _ _ _ _ Hs0 Hs1).
  now rewrite parse_fraction_chars.
Qed.

Lemma parse_time_chars :
  parse_isoformat_time tstr
  = Some (vh0 * 10 + vh1, vi0 * 10 + vi1, vs0 * 10 + vs1,
          ((((vf0 * 10 + vf1) * 10 + vf2) * 10 + vf3) * 10 + vf4) * 10 + vf5,
          None).
Proof.
  unfold parse_isoformat_time. cbv zeta.
  rewrite find_tz_pos_chars.
  change (String.length tstr) with 16%nat.
  cbn [Nat.ltb Nat.leb Nat.eqb andb].
  now rewrite parse_clock_chars.
Qed.

Lemma fromisoformat_chars :
  fromisoformat (dstr ++ "T" ++ tstr)
  = new_datetime (((vy0 * 10 + vy1) * 10 + vy2) * 10 + vy3)
      (vm0 * 10 + vm1) (vd0 * 10 + vd1) (vh0 * 10 + vh1) (vi0 * 10 + vi1)
      (vs0 * 10 + vs1)
      (((((vf0 * 10 + vf1) * 10 + vf2) * 10 + vf3) * 10 + vf4) * 10 + vf5)
      None.
Proof.
  unfold fromisoformat.
  change (String.length (dstr ++ "T" ++ tstr)) with 27%nat.
  change (slice (dstr ++ "T" ++ tstr) 4 5) with "-".
  change (slice (dstr ++ "T" ++ tstr) 5 6) with (String m0 "").
  change (slice (dstr ++ "T" ++ tstr) 0 10) with dstr.
  change (slice_from (dstr ++ "T" ++ tstr) 11) with tstr.
  cbn [Nat.ltb Nat.leb String.eqb Ascii.eqb Bool.eqb andb negb orb].
  rewrite (digit_eqb_false m0 "W" _ Hm0 eq_refl).
  cbn [andb].
  rewrite parse_date_chars, parse_time_chars.
  reflexivity.
Qed.

End Reparse.

Lemma digit_char_val :
  forall x, digit_val (digit_char (x mod 10)) = Some (x mod 10).
Proof.
  intros x. apply digit_val_char.
  pose proof (Z.mod_pos_bound x 10 ltac:(lia)). lia.
Qed.

Lemma new_datetime_valid :
  forall y m d h mi s us tz,
    fields_ok (mkdatetime y m d h mi s us tz) ->
    new_datetime y m d h mi s us tz = Some (mkdatetime y m d h mi s us tz).
Proof.
  intros y m d h mi s us tz F. unfold fields_ok in F.
  cbn [year month day hour minute second microsecond] in F.
  unfold new_datetime.
  replace (check_date_fields y m d && check_time_fields h mi s us) with true;
    [reflexivity |].
  symmetry. unfold check_date_fields, check_time_fields.
  rewrite !andb_true_iff, !Z.leb_le. lia.
Qed.

Lemma days_in_month_le_31 :
  forall y m, 1 <= m <= 12 -> days_in_month y m <= 31.
Proof.
  intros y m Hm. unfold days_in_month.
  assert (Hm0 : m = 1 \/ m = 2 \/ m = 3 \/ m = 4 \/ m = 5 \/ m = 6
                \/ m = 7 \/ m = 8 \/ m = 9 \/ m = 10 \/ m = 11 \/ m = 12)
    by lia.
  destruct (is_leap y);
    repeat (destruct Hm0 as [Hm0 | Hm0]; [subst m; month_table; lia |]);
    subst m; month_table; lia.
Qed.

(** The wire text of a well-formed naive value parses back to it. *)
Lemma fromisoformat_text7 :
  forall w, valid_naive w -> fromisoformat (text7 w) = Some w.
Proof.
  intros [y m d h mi s us tz] [F Htz].
  cbn [tzinfo] in Htz. subst tz.
  rewrite <- (new_datetime_valid _ _ _ _ _ _ _ _ F).
  unfold fields_ok in F.
  cbn [year month day hour minute second microsecond] in F.
  destruct F as [Hy [Hm [Hd [Hh [Hmi [Hs Hus]]]]]].
  pose proof (days_in_month_le_31 y m Hm) as Hd31.
  assert (Hd' : 1 <= d <= 31) by lia. clear Hd Hd31.
  unfold text7. cbn [fmt_digits year month day hour minute second microsecond].
  cbn [append].
  eapply eq_trans; [eapply fromisoformat_chars; apply digit_char_val |].
  f_equal; Z.div_mod_to_equations; lia.
Qed.

End ParseFacts.

(** ** Literal inference: dates and times *)

Module IsoFacts.

Import PyStr Re Patterns Datetime Literal Spec.
Import StrFacts ReFacts CaseFacts PatternFacts DatetimeFacts FormatFacts.
Import ParseFacts.

(** A text accepted by [ISO_DT_RE] is not a null sentinel. *)
Lemma iso_not_null_test :
  forall v,
    re_match ISO_DT_RE v = true ->
    ((v =? "") || (upper v =? "NULL"))%string = false.
Proof.
  intros v H. apply re_match_iso_first_digit in H.
  destruct H as [c [t [-> Hc]]]. cbn [String.eqb orb upper].
  rewrite (digit_upper c Hc). cbn [append String.eqb].
  destruct (Ascii.eqb_spec c "N"%char) as [-> | _];
    [discriminate | reflexivity].
Qed.

(** The date-and-time branch of [to_sql_literal]. *)
Lemma to_sql_literal_iso :
  forall val,
    re_match ISO_DT_RE (strip val) = true ->
    to_sql_literal (Some val)
    = "CONVERT(datetime2(7), '" ++ normalise (iso_text (strip val))
      ++ "', 126)".
Proof.
  intros val H. unfold to_sql_literal. cbv zeta.
  now rewrite (iso_not_null_test _ H), H.
Qed.




(** C6 at a bare date that is not in the calendar: the text matches the
    pattern and does not parse, and what is emitted is not the trimmed
    input but the input that line 34 has expanded to midnight. *)
Theorem as_sql_datetime2_126_invalid_bare_date :
  re_match ISO_DT_RE "2024-02-30" = true
  /\ fromisoformat "2024-02-30" = None
  /\ fromisoformat (iso_text "2024-02-30") = None
  /\ as_sql_datetime2_126 "2024-02-30"
     = "CONVERT(datetime2(7), '2024-02-30T00:00:00', 126)"
  /\ as_sql_datetime2_126 "2024-02-30"
     <> "CONVERT(datetime2(7), '" ++ strip "2024-02-30" ++ "', 126)".
Proof.
  repeat split; try (vm_compute; reflexivity).
  intros H. vm_compute in H. discriminate H.
Qed.

End IsoFacts.

(** * Further properties of the script *)

(** ** [strip] *)

Module StripFacts.

Import PyStr Spec StrFacts.

Lemma rstrip_cons :
  forall c t,
    rstrip (String c t)
    = match rstrip t with
      | EmptyString => if is_space c then EmptyString else String c EmptyString
      | t' => String c t'
      end.
Proof. reflexivity. Qed.

Lemma lstrip_idem : forall s, lstrip (lstrip s) = lstrip s.
Proof.
  induction s as [| c s IH]; [reflexivity |].
  simpl. destruct (is_space c) eqn:E; [assumption |].
  simpl. now rewrite E.
Qed.

Lemma rstrip_idem : forall s, rstrip (rstrip s) = rstrip s.
Proof.
  induction s as [| c s IH]; [reflexivity |].
  rewrite rstrip_cons. destruct (rstrip s) as [| x t] eqn:R.
  - destruct (is_space c) eqn:E; [reflexivity |].
    rewrite rstrip_cons. simpl. now rewrite E.
  - rewrite rstrip_cons, IH. reflexivity.
Qed.

(** A text without white space at its end stays so when characters are
    taken off its front. *)
Lemma rstrip_fixed_tail :
  forall c t, rstrip (String c t) = String c t -> rstrip t = t.
Proof.
  intros c t H. rewrite rstrip_cons in H.
  destruct (rstrip t) as [| x t'] eqn:R.
  - destruct (is_space c); [discriminate |]. now injection H as <-.
  - now injection H as <-.
Qed.

Lemma rstrip_lstrip_fixed :
  forall r, rstrip r = r -> rstrip (lstrip r) = lstrip r.
Proof.
  induction r as [| c r IH]; intros H; [reflexivity |].
  simpl. destruct (is_space c); [| assumption].
  apply IH. now apply rstrip_fixed_tail in H.
Qed.

Lemma rstrip_strip : forall s, rstrip (strip s) = strip s.
Proof. intros s. apply rstrip_lstrip_fixed, rstrip_idem. Qed.

Lemma strip_idem : forall s, strip (strip s) = strip s.
Proof.
  intros s. unfold strip at 1. rewrite rstrip_strip.
  unfold strip. apply lstrip_idem.
Qed.

Lemma rstrip_fixed_last :
  forall s c, rstrip s = s -> endswith s c = true -> is_space c = false.
Proof.
  induction s as [| x s IH]; intros c H He; [discriminate |].
  destruct s as [| y s'].
  - simpl in He. apply Ascii.eqb_eq in He. subst x.
    simpl in H. destruct (is_space c); [discriminate | reflexivity].
  - apply (IH c); [now apply rstrip_fixed_tail in H | exact He].
Qed.

(** A trimmed text does not end with a newline, so [$] can only match at
    its very end. *)
Lemma strip_no_newline :
  forall s, endswith (strip s) "010"%char = false.
Proof.
  intros s. destruct (endswith (strip s) "010"%char) eqn:E; [| reflexivity].
  apply (rstrip_fixed_last _ _ (rstrip_strip s)) in E. discriminate.
Qed.

End StripFacts.

(** ** Literal inference, beyond the classification *)

Module LiteralMore.

Import PyStr Re Patterns Datetime Literal Spec.
Import StrFacts ReFacts CaseFacts PatternFacts DatetimeFacts FormatFacts.
Import ParseFacts LiteralFacts IsoFacts StripFacts.

(** X1. The keyword NULL is what [to_sql_literal] returns for the null
    sentinels and for nothing else. *)
Theorem to_sql_literal_null_iff :
  forall val : option string,
    to_sql_literal val = "NULL" <-> null_sentinel val.
Proof.
  intros val. split.
  2:{ destruct val as [s |]; [| reflexivity].
      intros H. apply null_test_iff in H.
      unfold to_sql_literal. cbv zeta. now rewrite H. }
  destruct val as [s |]; [| intros _; exact I].
  intros H. apply null_test_iff.
  unfold to_sql_literal in H. cbv zeta in H.
  destruct ((strip s =? "") || (upper (strip s) =? "NULL"))%string eqn:Hn;
    [reflexivity | exfalso].
  destruct (re_match ISO_DT_RE (strip s)).
  - unfold as_sql_datetime2_126 in H. cbn [append] in H. discriminate H.
  - destruct (re_match NUMERIC_RE (strip s)).
    + rewrite H in Hn. vm_compute in Hn. discriminate Hn.
    + cbn [append] in H. discriminate H.
Qed.

Lemma to_sql_literal_null_iff_witness :
  to_sql_literal (Some " Null ") = "NULL"
  /\ null_sentinel (Some " Null ")
  /\ to_sql_literal (Some "nil") = "N'nil'"
  /\ ~ null_sentinel (Some "nil").
Proof.
  assert (H : to_sql_literal (Some " Null ") = "NULL") by reflexivity.
  split; [exact H | split; [| split; [reflexivity |]]].
  - exact (proj1 (to_sql_literal_null_iff (Some " Null ")) H).
  - intros N. apply (proj2 (to_sql_literal_null_iff (Some "nil"))) in N.
    discriminate N.
Defined.

(** X2. White space around a value never changes its literal. *)
Theorem to_sql_literal_strip :
  forall s : string,
    to_sql_literal (Some (strip s)) = to_sql_literal (Some s).
Proof.
  intros s. unfold to_sql_literal. now rewrite strip_idem.
Qed.

Lemma lang_star_digits_inv :
  forall w, lang (Star digit) w -> all_digits w = true.
Proof.
  intros w H. remember (Star digit) as r eqn:Er.
  induction H as [| | | | | a | a u v Hu _ Hv IHv]; try discriminate;
    [reflexivity |].
  injection Er as ->. apply lang_digit_inv in Hu.
  destruct Hu as [c [-> Hc]]. simpl. rewrite Hc. now apply IHv.
Qed.

Lemma lang_plus_digits_inv :
  forall w, lang (Plus digit) w -> w <> "" /\ all_digits w = true.
Proof.
  intros w H. apply lang_seq_inv in H. destruct H as [u [v [-> [Hu Hv]]]].
  apply lang_digit_inv in Hu. destruct Hu as [c [-> Hc]].
  apply lang_star_digits_inv in Hv. simpl. rewrite Hc, Hv.
  split; [discriminate | reflexivity].
Qed.

(** The language of [NUMERIC_RE] is the numeric texts. *)
Lemma lang_numeric_text : forall s, lang NUMERIC_RE s -> numeric_text s.
Proof.
  intros s H. unfold NUMERIC_RE in H.
  apply lang_seq_inv in H. destruct H as [sg [r [-> [Hsg Hr]]]].
  apply lang_seq_inv in Hr. destruct Hr as [whole [frac [-> [Hw Hf]]]].
  apply lang_plus_digits_inv in Hw. destruct Hw as [Hne Hd].
  exists sg, whole, frac. split; [reflexivity |].
  split; [| split; [exact Hne | split; [exact Hd |]]].
  - apply lang_alt_inv in Hsg. destruct Hsg as [Hsg | Hsg].
    + apply lang_class_inv in Hsg. destruct Hsg as [c [-> Hc]].
      apply orb_true_iff in Hc. rewrite !Ascii.eqb_eq in Hc.
      destruct Hc as [-> | ->]; auto.
    + apply lang_eps_inv in Hsg. auto.
  - apply lang_alt_inv in Hf. destruct Hf as [Hf | Hf].
    + right. apply lang_seq_inv in Hf. destruct Hf as [p [f [-> [Hp Hf]]]].
      apply lang_chr_inv in Hp. subst p.
      apply lang_plus_digits_inv in Hf. destruct Hf as [Hfne Hfd].
      exists f. auto.
    + left. now apply lang_eps_inv in Hf.
Qed.

(** X3. The date test of line 62 and the numeric test of line 64 never
    both hold for a value, so their order does not matter. *)
Theorem iso_and_numeric_exclusive :
  forall val : string,
    re_match ISO_DT_RE (strip val) && re_match NUMERIC_RE (strip val) = false.
Proof.
  intros val.
  rewrite !re_match_fullmatch by apply strip_no_newline.
  destruct (fullmatch NUMERIC_RE (strip val)) eqn:E;
    [| apply andb_false_r].
  apply fullmatch_lang, lang_numeric_text, numeric_text_not_iso in E.
  now rewrite E.
Qed.

End LiteralMore.

(** ** Dates and times, beyond the offset case *)

Module IsoMore.

Import PyStr Re Patterns Datetime Literal Spec.
Import StrFacts ReFacts CaseFacts PatternFacts DatetimeFacts FormatFacts.
Import ParseFacts LiteralFacts IsoFacts StripFacts.

Lemma new_datetime_fields_ok :
  forall y m d h mi s us tz dt,
    new_datetime y m d h mi s us tz = Some dt ->
    fields_ok dt /\ tzinfo dt = tz.
Proof.
  intros y m d h mi s us tz dt H. unfold new_datetime in H.
  destruct (check_date_fields y m d && check_time_fields h mi s us) eqn:C;
    [| discriminate].
  assert (E : dt = mkdatetime y m d h mi s us tz) by congruence.
  subst dt. split; [| reflexivity].
  unfold check_date_fields, check_time_fields in C.
  rewrite !andb_true_iff, !Z.leb_le in C.
  unfold fields_ok. cbn [year month day hour minute second microsecond].
  lia.
Qed.

(** What [fromisoformat] returns has passed the range checks. *)
Lemma fromisoformat_fields_ok :
  forall s dt, fromisoformat s = Some dt -> fields_ok dt.
Proof.
  intros s dt H. unfold fromisoformat in H.
  destruct (String.length s <? 10)%nat; [discriminate |].
  destruct (negb (slice s 4 5 =? "-")%string || (slice s 5 6 =? "W")%string);
    [discriminate |].
  destruct (parse_isoformat_date (slice s 0 10)) as [[[y m] d] |];
    [| discriminate].
  destruct (slice_from s 11 =? "")%string.
  - now apply new_datetime_fields_ok in H.
  - destruct (parse_isoformat_time (slice_from s 11))
      as [[[[[h mi] sec] us] tz] |]; [| discriminate].
    now apply new_datetime_fields_ok in H.
Qed.

Lemma astimezone_utc_fields_ok :
  forall dt off u, astimezone_utc dt off = Some u -> fields_ok u.
Proof.
  intros dt off u H. unfold astimezone_utc in H.
  destruct (add_us dt (- off)) as [u1 |]; [| discriminate].
  now apply add_us_spec in H.
Qed.




(** *** The emitted text is a fixed point *)

Lemma lang_rep_digits :
  forall s, all_digits s = true -> lang (Rep (String.length s) digit) s.
Proof.
  induction s as [| c s IH]; simpl; intros H; [constructor |].
  apply andb_true_iff in H. destruct H as [Hc Hs].
  apply (lang_seq digit _ (String c "") s); [now constructor | auto].
Qed.

Lemma lang_rep_fmt :
  forall n x, lang (Rep n digit) (fmt_digits n x).
Proof.
  intros n x. pose proof (lang_rep_digits (fmt_digits n x)) as H.
  rewrite fmt_digits_length in H. apply H.
  rewrite all_digits_all_chars. apply fmt_digits_all_digits.
Qed.

Lemma lang_upto_digits :
  forall k s,
    all_digits s = true -> (String.length s <= k)%nat ->
    lang (UpTo k digit) s.
Proof.
  induction k as [| k IH]; intros s Hd Hl.
  - destruct s; [constructor | simpl in Hl; lia].
  - cbn [UpTo]. destruct s as [| c s]; [apply lang_alt_r; constructor |].
    simpl in Hd, Hl. apply andb_true_iff in Hd. destruct Hd as [Hc Hs].
    apply lang_alt_l.
    apply (lang_seq digit _ (String c "") s); [now constructor |].
    apply IH; [assumption | lia].
Qed.

Lemma lang_fraction_fmt :
  forall x, lang FRACTION_RE ("." ++ fmt_digits 7 x).
Proof.
  intros x. unfold FRACTION_RE. apply lang_alt_l.
  apply (lang_seq (Chr ".") _ "." (fmt_digits 7 x));
    [constructor; reflexivity |].
  pose proof (fmt_digits_all_digits 7 x) as Hd.
  pose proof (fmt_digits_length 7 x) as Hl.
  rewrite <- all_digits_all_chars in Hd.
  destruct (fmt_digits 7 x) as [| c t]; [discriminate |].
  simpl in Hd, Hl. apply andb_true_iff in Hd. destruct Hd as [Hc Ht].
  unfold Range. cbn [Rep Nat.sub].
  apply (lang_seq (Seq digit Eps) _ (String c "") t).
  - apply (lang_seq digit Eps (String c "") ""); now constructor.
  - apply lang_upto_digits; [assumption | lia].
Qed.

(** The wire text is a text of [ISO_DT_RE]. *)
Lemma lang_iso_text7 : forall w, lang ISO_DT_RE (text7 w).
Proof.
  intros w.
  replace (text7 w)
    with ((fmt_digits 4 (year w)
           ++ ("-" ++ (fmt_digits 2 (month w)
           ++ ("-" ++ fmt_digits 2 (day w)))))
          ++ (("T" ++ (fmt_digits 2 (hour w)
               ++ (":" ++ (fmt_digits 2 (minute w)
               ++ (":" ++ fmt_digits 2 (second w))))))
              ++ (("." ++ fmt_digits 7 (microsecond w * 10)) ++ "")))
    by (unfold text7; now rewrite !append_assoc, append_nil_r).
  unfold ISO_DT_RE. apply lang_seq.
  - unfold DATE_RE.
    repeat first [ apply lang_rep_fmt
                 | apply lang_seq
                 | (unfold Chr; apply lang_class; reflexivity) ].
  - apply lang_alt_l. apply lang_seq; [| apply lang_seq].
    + unfold CLOCK_RE.
      repeat first [ apply lang_rep_fmt
                   | apply lang_seq
                   | (unfold Chr; apply lang_class; reflexivity) ].
    + apply lang_fraction_fmt.
    + unfold ZONE_RE. apply lang_alt_r. constructor.
Qed.

Lemma lang_rep_digit_length :
  forall n s, lang (Rep n digit) s -> String.length s = n.
Proof.
  induction n as [| n IH]; intros s H; cbn [Rep] in H.
  - now apply lang_eps_inv in H; subst.
  - apply lang_seq_inv in H. destruct H as [u [v [-> [Hu Hv]]]].
    apply lang_digit_inv in Hu. destruct Hu as [c [-> _]].
    simpl. now rewrite (IH v Hv).
Qed.

Lemma lang_date_length :
  forall s, lang DATE_RE s -> String.length s = 10%nat.
Proof.
  intros s H. unfold DATE_RE in H.
  apply lang_seq_inv in H. destruct H as [y [r1 [-> [Hy H]]]].
  apply lang_seq_inv in H. destruct H as [p1 [r2 [-> [Hp1 H]]]].
  apply lang_seq_inv in H. destruct H as [m [r3 [-> [Hm H]]]].
  apply lang_seq_inv in H. destruct H as [p2 [d [-> [Hp2 Hd]]]].
  apply lang_chr_inv in Hp1, Hp2. subst p1 p2.
  apply lang_rep_digit_length in Hy, Hm, Hd.
  rewrite !length_append, Hy, Hm, Hd. reflexivity.
Qed.

Lemma text7_wire_chars : forall w, all_chars wire_char (text7 w) = true.
Proof.
  intros w. unfold text7.
  assert (Hf : forall n x, all_chars wire_char (fmt_digits n x) = true).
  { intros n x. apply (all_chars_weaken is_digit);
      [| apply fmt_digits_all_digits].
    intros c Hc. unfold wire_char. now rewrite Hc. }
  rewrite !all_chars_append, !Hf. reflexivity.
Qed.

Lemma wire_char_not_space :
  forall c, wire_char c = true -> negb (is_space c) = true.
Proof.
  intros c H. unfold wire_char in H.
  rewrite !orb_true_iff, !Ascii.eqb_eq in H.
  destruct H as [[[[H | ->] | ->] | ->] | ->]; try reflexivity.
  now rewrite digit_not_space.
Qed.



End IsoMore.

(** ** The column set, beyond the key *)

Module ColumnsMore.

Import Columns ColumnsFacts.

(** X7. A name of the exclusion list is never in the column set, unless it
    is the key column and identifiers are generated: the key is put first
    whether excluded or not. *)
Theorem build_columns_excluded :
  forall (csv_columns : option (list string)) (exclude : list string)
         (id_column : option string) (generate_uuid : bool) (c : string),
    In c exclude ->
    In c (build_columns csv_columns exclude id_column generate_uuid) ->
    id_column = Some c /\ generate_uuid = true.
Proof.
  intros csv exclude id_column gen c Hex Hin. unfold build_columns in Hin.
  set (cols := filter _ (or_nil csv)) in Hin.
  assert (Hc : ~ In c cols).
  { intros H. apply filter_In in H. destruct H as [_ H].
    apply andb_true_iff in H. destruct H as [_ H].
    apply negb_true_iff in H. apply py_in_In in Hex. congruence. }
  destruct id_column as [id |]; [| contradiction].
  destruct (truthy id) eqn:Et; cbn [andb] in Hin; [| contradiction].
  destruct gen; [| contradiction].
  destruct (negb (py_in id cols)); simpl in Hin.
  - destruct Hin as [-> | Hin]; [now split | contradiction].
  - destruct Hin as [-> | Hin]; [now split |].
    apply filter_In in Hin. tauto.
Qed.

Lemma build_columns_excluded_witness :
  In "Id" ["Id"; "RowVersion"]
  /\ build_columns (Some ["Name"; "Id"; "RowVersion"]) ["Id"; "RowVersion"]
       (Some "Id") true = ["Id"; "Name"]
  /\ (Some "Id" = Some "Id" /\ true = true).
Proof.
  assert (H1 : In "Id" ["Id"; "RowVersion"]) by (left; reflexivity).
  assert (H2 : In "Id"
                 (build_columns (Some ["Name"; "Id"; "RowVersion"])
                    ["Id"; "RowVersion"] (Some "Id") true))
    by (left; reflexivity).
  split; [exact H1 | split; [reflexivity |]].
  exact (build_columns_excluded _ _ _ _ _ H1 H2).
Defined.

Lemma filter_idem :
  forall (A : Type) (p : A -> bool) (l : list A),
    filter p (filter p l) = filter p l.
Proof.
  intros A p l. apply forallb_filter_id. apply forallb_forall.
  intros x Hx. apply filter_In in Hx. tauto.
Qed.

Lemma filter_absent :
  forall (id : string) (l : list string),
    ~ In id l -> filter (fun c => negb (c =? id)%string) l = l.
Proof.
  intros id l H. apply forallb_filter_id. apply forallb_forall.
  intros x Hx. apply negb_true_iff, String.eqb_neq. congruence.
Qed.

Lemma filter_comm :
  forall (A : Type) (p q : A -> bool) (l : list A),
    filter p (filter q l) = filter q (filter p l).
Proof.
  intros A p q l. induction l as [| x l IH]; [reflexivity |].
  simpl. destruct (p x) eqn:Hp, (q x) eqn:Hq; simpl;
    rewrite ?Hp, ?Hq, IH; reflexivity.
Qed.

(** X8. Finalising a column set that is already final changes nothing. *)
Theorem build_columns_idempotent :
  forall (csv_columns : option (list string)) (exclude : list string)
         (id_column : option string) (generate_uuid : bool),
    build_columns
      (Some (build_columns csv_columns exclude id_column generate_uuid))
      exclude id_column generate_uuid
    = build_columns csv_columns exclude id_column generate_uuid.
Proof.
  intros csv exclude id_column gen. unfold build_columns.
  set (keep := fun c => truthy c && negb (py_in c exclude)).
  set (cols := filter keep (or_nil csv)).
  assert (Hcols : filter keep cols = cols) by apply filter_idem.
  destruct id_column as [id |]; [| exact Hcols].
  destruct (truthy id && gen) eqn:Eg; [| cbn [or_nil]; exact Hcols].
  set (other := fun c => negb (c =? id)%string).
  assert (Ho : other id = false)
    by (unfold other; now rewrite String.eqb_refl).
  assert (Hhead : forall l, py_in id (id :: l) = true)
    by (intros l; cbn [py_in existsb]; now rewrite String.eqb_refl).
  destruct (py_in id cols) eqn:Ein; cbn [negb or_nil].
  - (* the key was in the header and survived the filter *)
    assert (Hk : keep id = true).
    { apply py_in_In in Ein. apply filter_In in Ein. tauto. }
    assert (Hf : filter keep (filter other cols) = filter other cols).
    { rewrite filter_comm. now rewrite Hcols. }
    cbn [filter]. rewrite Hk, Hf, Hhead. cbn [negb filter].
    now rewrite Ho, filter_idem.
  - assert (Hn : ~ In id cols).
    { intros H. apply py_in_In in H. congruence. }
    cbn [filter]. rewrite Hcols. destruct (keep id).
    + rewrite Hhead. cbn [negb filter]. rewrite Ho.
      subst other. now rewrite (filter_absent id cols Hn).
    + now rewrite Ein.
Qed.

End ColumnsMore.

(** ** Emission *)

Module EmitFacts.

Import PyStr Literal Columns Emit Spec StrFacts LiteralFacts.
Local Open Scope list_scope.

Lemma append_inj_l :
  forall a x y : string, (a ++ x = a ++ y)%string -> x = y.
Proof.
  induction a as [| c a IH]; intros x y H; simpl in H; [assumption |].
  injection H as H. now apply IH.
Qed.

Lemma append_inj_r :
  forall x y c : string, (x ++ c = y ++ c)%string -> x = y.
Proof.
  induction x as [| a x IH]; intros [| b y] c H; simpl in H.
  - reflexivity.
  - apply (f_equal String.length) in H. simpl in H.
    rewrite length_append in H. lia.
  - apply (f_equal String.length) in H. simpl in H.
    rewrite length_append in H. lia.
  - injection H as -> H. f_equal. now apply (IH y c).
Qed.

(** *** Decimal numbers *)

Lemma decimal_value_zero :
  forall s, decimal_value (String "0" s) = decimal_value s.
Proof.
  intros s. unfold decimal_value. cbn [NilEmpty.uint_of_string].
  destruct (NilEmpty.uint_of_string s) as [u |]; reflexivity.
Qed.

Lemma decimal_value_zeros :
  forall k s, decimal_value (zeros k ++ s)%string = decimal_value s.
Proof.
  induction k as [| k IH]; intros s; [reflexivity |].
  cbn [zeros append]. now rewrite decimal_value_zero.
Qed.

Lemma decimal_value_str_int :
  forall z, 0 <= z -> decimal_value (str_int z) = Some z.
Proof.
  intros z Hz. unfold str_int, decimal_value.
  pose proof (DecimalZ.of_to z) as E.
  destruct z as [| p | p]; [reflexivity | | lia].
  cbn [Z.to_int NilZero.string_of_int] in *.
  unfold NilZero.string_of_uint.
  destruct (Pos.to_uint p) as [| u | u | u | u | u | u | u | u | u | u] eqn:Ep;
    [discriminate E | ..];
    rewrite NilEmpty.usu; cbn [option_map]; f_equal; exact E.
Qed.

Lemma decimal_value_fmt_03d :
  forall z, 0 <= z -> decimal_value (fmt_03d z) = Some z.
Proof.
  intros z Hz. unfold fmt_03d.
  destruct (Z.ltb_spec z 0); [lia |].
  unfold zfill. rewrite decimal_value_zeros. now apply decimal_value_str_int.
Qed.

Lemma out_path_inj :
  forall (out_base : string) (i j : Z),
    0 <= i -> 0 <= j ->
    out_path out_base i = out_path out_base j ->
    i = j.
Proof.
  intros base i j Hi Hj H. unfold out_path in H.
  apply append_inj_l in H. apply append_inj_l in H.
  apply append_inj_r in H.
  apply (f_equal decimal_value) in H.
  rewrite !decimal_value_fmt_03d in H by assumption. congruence.
Qed.

(** X9. The part number in a file name reads back as the chunk number,
    so two chunk numbers never share a file name. *)
Theorem out_path_injective :
  forall (out_base : string) (i j : Z),
    0 <= i -> 0 <= j ->
    (exists rest,
       out_path out_base i = (out_base ++ "-part-" ++ rest ++ ".sql")%string
       /\ decimal_value rest = Some i)
    /\ (out_path out_base i = out_path out_base j -> i = j).
Proof.
  intros base i j Hi Hj. split; [| now apply out_path_inj].
  exists (fmt_03d i). split; [reflexivity | now apply decimal_value_fmt_03d].
Qed.

Lemma out_path_injective_witness :
  0 <= 7 /\ out_path "inserts" 7 = "inserts-part-007.sql"
  /\ out_path "inserts" 1234 = "inserts-part-1234.sql"
  /\ 7 = 7.
Proof.
  assert (H : 0 <= 7) by lia.
  split; [exact H | split; [reflexivity | split; [reflexivity |]]].
  exact (proj2 (out_path_injective "inserts" 7 7 H H) eq_refl).
Defined.

Section Generator.

Variable uuid4 : nat -> string.

(** Number of the columns for which an identifier is drawn. *)
Lemma row_values_shape :
  forall id_column generate_uuid r columns n,
    List.length (fst (row_values uuid4 id_column generate_uuid r columns n))
    = List.length columns
    /\ snd (row_values uuid4 id_column generate_uuid r columns n)
       = (n + List.length
                (filter (is_generated id_column generate_uuid) columns))%nat.
Proof.
  intros id g r columns. induction columns as [| c cs IH]; intros n.
  - simpl. split; [reflexivity | lia].
  - cbn [row_values filter].
    destruct (is_generated id g c).
    + destruct (IH (S n)) as [IH1 IH2].
      destruct (row_values uuid4 id g r cs (S n)) as [vals n'].
      cbn [fst snd List.length] in *. split; lia.
    + destruct (IH n) as [IH1 IH2].
      destruct (row_values uuid4 id g r cs n) as [vals n'].
      cbn [fst snd List.length] in *. split; lia.
Qed.

(** X10. For every row [write_chunk_sql] writes one statement, and the
    generator is called once per row for each column that is the
    generated key. *)
Theorem chunk_statements_shape :
  forall rows columns table id_column generate_uuid n,
    List.length
      (fst (chunk_statements uuid4 rows columns table id_column
              generate_uuid n))
    = List.length rows
    /\ snd (chunk_statements uuid4 rows columns table id_column
              generate_uuid n)
       = (n + List.length rows
              * List.length
                  (filter (is_generated id_column generate_uuid) columns))%nat.
Proof.
  intros rows columns table id g.
  induction rows as [| r rs IH]; intros n.
  - simpl. split; [reflexivity | lia].
  - cbn [chunk_statements].
    pose proof (row_values_shape id g r columns n) as [_ Hn1].
    destruct (row_values uuid4 id g r columns n) as [vals n1].
    cbn [snd] in Hn1.
    destruct (IH n1) as [IH1 IH2].
    destruct (chunk_statements uuid4 rs columns table id g n1)
      as [stmts n2].
    cbn [fst snd List.length] in *. split; lia.
Qed.

(** When no column is the generated key, the values are the literals of
    the cells and the generator is left alone. *)
Lemma row_values_plain :
  forall id_column generate_uuid r columns n,
    (forall c, In c columns ->
               is_generated id_column generate_uuid c = false) ->
    row_values uuid4 id_column generate_uuid r columns n
    = (map (fun c => to_sql_literal (dict_get r c)) columns, n).
Proof.
  intros id g r columns. induction columns as [| c cs IH]; intros n H.
  - reflexivity.
  - cbn [row_values map]. rewrite (H c) by now left.
    rewrite IH by (intros x Hx; apply H; now right). reflexivity.
Qed.

Lemma chunk_statements_plain :
  forall rows columns table id_column generate_uuid n,
    (forall c, In c columns ->
               is_generated id_column generate_uuid c = false) ->
    chunk_statements uuid4 rows columns table id_column generate_uuid n
    = (map (fun r =>
              insert_statement table columns
                (map (fun c => to_sql_literal (dict_get r c)) columns))
           rows, n).
Proof.
  intros rows columns table id g n H.
  induction rows as [| r rs IH]; [reflexivity |].
  cbn [chunk_statements map]. rewrite row_values_plain by assumption.
  now rewrite IH.
Qed.

Lemma is_generated_off :
  forall id_column c, is_generated id_column false c = false.
Proof.
  intros [id |] c; [| reflexivity]. unfold is_generated.
  now rewrite andb_false_r.
Qed.

Lemma write_chunk_sql_off :
  forall idx rows columns table out_base id_column n,
    write_chunk_sql uuid4 idx rows columns table out_base id_column false n
    = ((out_path out_base idx,
        file_text idx table columns (List.length rows)
          (map (fun r =>
                  insert_statement table columns
                    (map (fun c => to_sql_literal (dict_get r c)) columns))
               rows)), n).
Proof.
  intros. unfold write_chunk_sql.
  rewrite chunk_statements_plain
    by (intros c _; apply is_generated_off).
  reflexivity.
Qed.

(** X11. With generation off, the file written is the header, one
    statement per row whose values are the literals of the row's cells in
    the order of the columns, and the footer; the generator is not
    called. *)
Theorem write_chunk_sql_plain :
  forall idx rows columns table out_base id_column n,
    write_chunk_sql uuid4 idx rows columns table out_base id_column false n
    = ((out_path out_base idx,
        file_text idx table columns (List.length rows)
          (map (fun r =>
                  insert_statement table columns
                    (map (fun c => to_sql_literal (dict_get r c)) columns))
               rows)), n).
Proof.
  intros idx rows columns table out_base id_column n.
  unfold write_chunk_sql.
  assert (Hoff : forall c, In c columns ->
                           is_generated id_column false c = false)
    by (intros c _; apply is_generated_off).
  now rewrite (chunk_statements_plain rows columns table id_column false n
                 Hoff).
Qed.

(** A name that is not a key of the row reads as the empty text. *)
Lemma dict_get_missing :
  forall (r : row) c, ~ In c (map fst r) -> dict_get r c = Some ""%string.
Proof.
  induction r as [| [k v] r IH]; intros c H; [reflexivity |].
  simpl in *. destruct (String.eqb_spec k c) as [-> | _]; [tauto |].
  apply IH. tauto.
Qed.


Lemma is_generated_key :
  forall id, id <> ""%string -> is_generated (Some id) true id = true.
Proof.
  intros id H. unfold is_generated.
  apply ColumnsFacts.truthy_nonempty in H.
  now rewrite H, String.eqb_refl.
Qed.

Lemma is_generated_other :
  forall id g c, c <> id -> is_generated (Some id) g c = false.
Proof.
  intros id g c H. unfold is_generated.
  apply String.eqb_neq in H. rewrite H. apply andb_false_r.
Qed.

(** One row when the key is the first column and nowhere else. *)
Lemma row_values_key_first :
  forall id rest r n,
    id <> ""%string -> ~ In id rest ->
    row_values uuid4 (Some id) true r (id :: rest) n
    = (("'" ++ uuid4 n ++ "'")%string
         :: map (fun c => to_sql_literal (dict_get r c)) rest, S n).
Proof.
  intros id rest r n Hid Hn. cbn [row_values].
  rewrite (is_generated_key id Hid).
  rewrite row_values_plain; [reflexivity |].
  intros c Hc. apply is_generated_other. congruence.
Qed.

Lemma chunk_statements_key_first :
  forall id rest table rows n,
    id <> ""%string -> ~ In id rest ->
    snd (chunk_statements uuid4 rows (id :: rest) table (Some id) true n)
    = (n + List.length rows)%nat
    /\ forall k r,
         nth_error rows k = Some r ->
         nth_error
           (fst (chunk_statements uuid4 rows (id :: rest) table (Some id)
                   true n)) k
         = Some (insert_statement table (id :: rest)
                   (("'" ++ uuid4 (n + k) ++ "'")%string
                      :: map (fun c => to_sql_literal (dict_get r c)) rest)).
Proof.
  intros id rest table rows n Hid Hn. revert n.
  induction rows as [| r0 rs IH]; intros n.
  - split; [simpl; lia | intros [| k] r H; discriminate H].
  - cbn [chunk_statements]. rewrite (row_values_key_first id rest r0 n Hid Hn).
    destruct (IH (S n)) as [IH1 IH2].
    destruct (chunk_statements uuid4 rs (id :: rest) table (Some id) true
                (S n)) as [stmts n2].
    cbn [fst snd List.length] in *. split; [lia |].
    intros [| k] r H; cbn [nth_error] in *.
    + injection H as <-. now rewrite Nat.add_0_r.
    + rewrite (IH2 k r H).
      now replace (n + S k)%nat with (S n + k)%nat by lia.
Qed.

(** X13. With a key column and generation on, in a chunk written for the
    column set of [build_columns], the statement of the row number [k]
    starts with the identifier drawn by the call number [n + k] of the
    generator, [n] calls having been made before the chunk; the other
    values are the literals of the row's cells, and the cell of the key
    column is not read. *)
Theorem chunk_statements_generated :
  forall csv_columns exclude id table rows n k r,
    id <> ""%string ->
    nth_error rows k = Some r ->
    exists rest,
      build_columns csv_columns exclude (Some id) true = id :: rest
      /\ ~ In id rest
      /\ nth_error
           (fst (chunk_statements uuid4 rows
                   (build_columns csv_columns exclude (Some id) true)
                   table (Some id) true n)) k
         = Some (insert_statement table (id :: rest)
                   (("'" ++ uuid4 (n + k) ++ "'")%string
                      :: map (fun c => to_sql_literal (dict_get r c)) rest))
      /\ snd (chunk_statements uuid4 rows
                (build_columns csv_columns exclude (Some id) true)
                table (Some id) true n)
         = (n + List.length rows)%nat.
Proof.
  intros csv exclude id table rows n k r Hid Hr.
  destruct (ColumnsFacts.build_columns_key_shape csv exclude id Hid)
    as [rest [E [Hn _]]].
  exists rest. rewrite E.
  destruct (chunk_statements_key_first id rest table rows n Hid Hn)
    as [S1 S2].
  split; [reflexivity | split; [exact Hn | split; [now apply S2 | exact S1]]].
Qed.

End Generator.


Lemma chunk_statements_generated_witness :
  "Id"%string <> ""%string
  /\ nth_error
       [[("Id"%string, Some "1"%string); ("Name"%string, Some "A"%string)];
        [("Id"%string, Some "2"%string); ("Name"%string, Some "B"%string)]]
       1
     = Some [("Id"%string, Some "2"%string); ("Name"%string, Some "B"%string)]
  /\ fst (chunk_statements (fun k => str_int (Z.of_nat k))
            [[("Id"%string, Some "1"%string);
              ("Name"%string, Some "A"%string)];
             [("Id"%string, Some "2"%string);
              ("Name"%string, Some "B"%string)]]
            (build_columns (Some ["Name"; "Id"]%string) [] (Some "Id"%string)
               true)
            "T"%string (Some "Id"%string) true 5)
     = [("INSERT INTO T (Id, Name) VALUES ('5', N'A');" ++ nl)%string;
        ("INSERT INTO T (Id, Name) VALUES ('6', N'B');" ++ nl)%string]
  /\ exists rest,
       build_columns (Some ["Name"; "Id"]%string) [] (Some "Id"%string) true
       = "Id"%string :: rest.
Proof.
  assert (H1 : "Id"%string <> ""%string) by discriminate.
  assert (H2 : nth_error
                 [[("Id"%string, Some "1"%string);
                   ("Name"%string, Some "A"%string)];
                  [("Id"%string, Some "2"%string);
                   ("Name"%string, Some "B"%string)]] 1
               = Some [("Id"%string, Some "2"%string);
                       ("Name"%string, Some "B"%string)]) by reflexivity.
  destruct (chunk_statements_generated (fun k => str_int (Z.of_nat k))
              (Some ["Name"; "Id"]%string) [] "Id"%string "T"%string _ 5%nat
              1%nat _ H1 H2) as [rest [E _]].
  split; [exact H1 | split; [exact H2 | split; [vm_compute; reflexivity |]]].
  exists rest. exact E.
Defined.

End EmitFacts.

(** ** The script as a whole *)

Module ScriptFacts.

Import PyStr Literal Columns Emit Script Spec.
Import StrFacts StripFacts ColumnsFacts ChunkingFacts EmitFacts.
Local Open Scope list_scope.

(** X14. The key column named on the command line is trimmed; an absent,
    empty or blank name designates no key and turns generation off,
    whatever the flag; otherwise generation follows the flag. *)
Theorem effective_id_column_spec :
  forall a : args,
    let raw := match id_column a with Some s => s | None => ""%string end in
    match effective_id_column a with
    | Some id =>
        id = strip raw /\ id <> ""%string /\ strip id = id
        /\ effective_generate_uuid a = negb (no_generate_uuid a)
    | None =>
        strip raw = ""%string /\ effective_generate_uuid a = false
    end.
Proof.
  intros a raw. unfold effective_generate_uuid, effective_id_column.
  fold raw. cbv zeta.
  destruct (truthy (strip raw)) eqn:E.
  - rewrite E. apply truthy_nonempty in E.
    repeat split; [assumption | apply strip_idem | apply andb_true_r].
  - unfold truthy in E. apply negb_false_iff, String.eqb_eq in E.
    split; [assumption | apply andb_false_r].
Qed.

Lemma generate_uuid_key :
  forall a,
    effective_generate_uuid a = true ->
    exists id, effective_id_column a = Some id /\ id <> ""%string.
Proof.
  intros a H. unfold effective_generate_uuid in H.
  apply andb_true_iff in H. destruct H as [_ H].
  destruct (effective_id_column a) as [id |]; [| discriminate].
  exists id. split; [reflexivity | now apply truthy_nonempty].
Qed.

Lemma columns_of_key_shape :
  forall (a : args) (fieldnames : option (list string)),
    effective_generate_uuid a = true ->
    exists id rest,
      effective_id_column a = Some id
      /\ id <> ""%string
      /\ columns_of a fieldnames = id :: rest
      /\ ~ In id rest
      /\ incl rest (or_nil fieldnames).
Proof.
  intros a fn H. destruct (generate_uuid_key a H) as [id [E Hid]].
  unfold columns_of. rewrite E, H.
  destruct (build_columns_key_shape (Some (or_nil fn))
              (or_nil (exclude_columns a)) id Hid) as [rest [E' [Hn Hi]]].
  exists id, rest. auto.
Qed.

(** X15. Whenever [main] generates identifiers, its column set is the
    trimmed key followed by columns of the header that differ from it. *)
Theorem columns_of_generated :
  forall (a : args) (fieldnames : option (list string)),
    effective_generate_uuid a = true ->
    exists id rest,
      effective_id_column a = Some id
      /\ id <> ""%string
      /\ strip id = id
      /\ columns_of a fieldnames = id :: rest
      /\ ~ In id rest
      /\ incl rest (or_nil fieldnames).
Proof.
  intros a fn H.
  destruct (columns_of_key_shape a fn H) as [id [rest [E [Hid [Ec [Hn Hi]]]]]].
  exists id, rest. repeat split; try assumption.
  unfold effective_id_column in E.
  destruct (truthy (strip match id_column a with
                          | Some s => s
                          | None => ""%string
                          end)); [| discriminate].
  injection E as <-. apply strip_idem.
Qed.

Lemma columns_of_generated_witness :
  effective_generate_uuid
    (mkargs "T" "out" 1000 (Some " Id ") false None) = true
  /\ columns_of (mkargs "T" "out" 1000 (Some " Id ") false None)
       (Some ["Name"; "Id"; "Age"]%string)
     = ["Id"; "Name"; "Age"]%string
  /\ exists id rest,
       effective_id_column (mkargs "T" "out" 1000 (Some " Id ") false None)
       = Some id
       /\ columns_of (mkargs "T" "out" 1000 (Some " Id ") false None)
            (Some ["Name"; "Id"; "Age"]%string) = id :: rest.
Proof.
  assert (H : effective_generate_uuid
                (mkargs "T" "out" 1000 (Some " Id ") false None) = true)
    by reflexivity.
  destruct (columns_of_generated _ (Some ["Name"; "Id"; "Age"]%string) H)
    as [id [rest [E1 [_ [_ [E2 _]]]]]].
  split; [exact H | split; [reflexivity |]].
  exists id, rest. split; assumption.
Defined.

(** *** The chunks of [main] *)

Lemma chunking_main_partition :
  forall (row : Type) (cs : Z) (rows : list row),
    Chunking.main cs rows = Chunking.partition (Z.max 1 cs) rows.
Proof.
  intros row cs rows.
  rewrite <- (main_positive row (Z.max 1 cs) rows) by lia.
  unfold Chunking.main, Chunking.effective_chunk_size.
  now rewrite Z.max_assoc, Z.max_id.
Qed.

Lemma partition_numbers :
  forall (row : Type) (c : Z) (rows : list row),
    map fst (Chunking.partition c rows)
    = map (fun i => Z.of_nat i + 1)
        (seq 0 (List.length (Chunking.partition c rows))).
Proof.
  intros row c rows. unfold Chunking.partition, Chunking.range.
  rewrite !length_map, length_seq, !map_map. reflexivity.
Qed.

(** X16. Every chunk that [main] writes has at least one row and at most
    the effective chunk size, whatever the configured size. *)
Theorem main_chunk_sizes :
  forall (row : Type) (cs : Z) (rows : list row) (idx : Z)
         (chunk : list row),
    In (idx, chunk) (Chunking.main cs rows) ->
    1 <= Z.of_nat (List.length chunk) <= Z.max 1 cs.
Proof.
  intros row cs rows idx chunk H.
  rewrite chunking_main_partition in H.
  set (c := Z.max 1 cs) in *. assert (Hc : 0 < c) by lia.
  apply In_nth_error in H. destruct H as [i Hi].
  assert (Hlt : (i < List.length (Chunking.partition c rows))%nat).
  { apply nth_error_Some. congruence. }
  rewrite (partition_nth_error row c rows i Hc Hlt) in Hi.
  injection Hi as _ <-.
  pose proof (partition_length row c rows Hc) as HL.
  pose proof (ceil_div_is_ceil (Z.of_nat (List.length rows)) c
                ltac:(lia) Hc) as Hk.
  unfold is_ceil in Hk.
  assert (Hi : Z.of_nat i * c < Z.of_nat (List.length rows)) by nia.
  assert (H0 : 0 <= Z.of_nat i * c) by nia.
  rewrite segment_length; lia.
Qed.

Lemma main_chunk_sizes_witness :
  In (3, ["g"%string])
     (Chunking.main 3 ["a"; "b"; "c"; "d"; "e"; "f"; "g"]%string)
  /\ 1 <= Z.of_nat (List.length ["g"%string]) <= Z.max 1 3.
Proof.
  assert (H : In (3, ["g"%string])
                (Chunking.main 3 ["a"; "b"; "c"; "d"; "e"; "f"; "g"]%string)).
  { right. right. left. reflexivity. }
  split; [exact H | exact (main_chunk_sizes _ _ _ _ _ H)].
Defined.

Section Generator.

Variable uuid4 : nat -> string.

Lemma write_chunks_paths :
  forall a cols chunks n,
    map fst (fst (write_chunks uuid4 a cols chunks n))
    = map (fun p => out_path (out_base a) (fst p)) chunks.
Proof.
  intros a cols chunks. induction chunks as [| [idx chunk] rest IH];
    intros n; [reflexivity |].
  cbn [write_chunks]. unfold write_chunk_sql.
  destruct (chunk_statements uuid4 chunk cols (table a)
              (effective_id_column a) (effective_generate_uuid a) n)
    as [stmts n1].
  specialize (IH n1).
  destruct (write_chunks uuid4 a cols rest n1) as [files n2].
  cbn [fst map] in *. now rewrite IH.
Qed.


(** *** Without generation *)

Lemma write_chunks_plain :
  forall a cols chunks n,
    effective_generate_uuid a = false ->
    write_chunks uuid4 a cols chunks n
    = (map (fun p : Z * list row =>
              (out_path (out_base a) (fst p),
               file_text (fst p) (table a) cols (List.length (snd p))
                 (map (fun r =>
                         insert_statement (table a) cols
                           (map (fun c => to_sql_literal (dict_get r c))
                              cols))
                      (snd p))))
           chunks, n).
Proof.
  intros a cols chunks n H. induction chunks as [| [idx chunk] rest IH];
    [reflexivity |].
  cbn [write_chunks]. rewrite H, write_chunk_sql_off.
  now rewrite IH.
Qed.

End Generator.

(** X18. When generation is off, by the flag or for want of a key, the
    files do not depend on the generator: each is the header, one
    statement per row made of the literals of its cells in the order of
    the column set, and the footer. *)
Theorem main_plain :
  forall (uuid4 uuid4' : nat -> string) (a : args)
         (fieldnames : option (list string)) (all_rows : list row),
    effective_generate_uuid a = false ->
    main uuid4 a fieldnames all_rows = main uuid4' a fieldnames all_rows
    /\ main uuid4 a fieldnames all_rows
       = map (fun p : Z * list row =>
                (out_path (out_base a) (fst p),
                 file_text (fst p) (table a) (columns_of a fieldnames)
                   (List.length (snd p))
                   (map (fun r =>
                           insert_statement (table a)
                             (columns_of a fieldnames)
                             (map (fun c => to_sql_literal (dict_get r c))
                                (columns_of a fieldnames)))
                        (snd p))))
           (Chunking.main (chunk_size a) all_rows).
Proof.
  intros u u' a fn rows H. unfold main.
  rewrite !(write_chunks_plain _ a _ _ 0%nat H). split; reflexivity.
Qed.

Lemma main_plain_witness :
  effective_generate_uuid (mkargs "T" "out" 1 (Some "Id") true None) = false
  /\ main (fun _ => "x"%string) (mkargs "T" "out" 1 (Some "Id") true None)
       (Some ["Id"; "Name"]%string)
       [[("Id"%string, Some "1"%string); ("Name"%string, Some "O'Neil"%string)]]
     = main (fun _ => "y"%string) (mkargs "T" "out" 1 (Some "Id") true None)
         (Some ["Id"; "Name"]%string)
         [[("Id"%string, Some "1"%string);
           ("Name"%string, Some "O'Neil"%string)]].
Proof.
  assert (H : effective_generate_uuid
                (mkargs "T" "out" 1 (Some "Id") true None) = false)
    by reflexivity.
  split; [exact H |].
  exact (proj1 (main_plain (fun _ => "x"%string) (fun _ => "y"%string)
                  _ (Some ["Id"; "Name"]%string) _ H)).
Defined.

(** *** With generation *)

Lemma firstn_seq :
  forall j start len, firstn j (seq start len) = seq start (Nat.min j len).
Proof.
  induction j as [| j IH]; intros start [| len]; try reflexivity.
  cbn [firstn seq Nat.min]. now rewrite IH.
Qed.

(** The rows that come before the chunk of position [j]. *)
Lemma partition_prefix_length :
  forall (row : Type) (c : Z) (rows : list row) (j : nat),
    0 < c ->
    (j <= List.length (Chunking.partition c rows))%nat ->
    List.length
      (List.concat (map snd (firstn j (Chunking.partition c rows))))
    = Z.to_nat (Z.min (Z.of_nat j * c) (Z.of_nat (List.length rows))).
Proof.
  intros row c rows j Hc Hj.
  pose proof (partition_length row c rows Hc) as HL.
  pose proof (ceil_div_is_ceil (Z.of_nat (List.length rows)) c
                ltac:(lia) Hc) as Hk.
  pose proof (ceil_div_nonneg (Z.of_nat (List.length rows)) c
                ltac:(lia) Hc) as H0.
  unfold is_ceil in Hk.
  unfold Chunking.partition, Chunking.range in *.
  rewrite !length_map, length_seq in Hj.
  rewrite !firstn_map, firstn_seq, Nat.min_l by assumption.
  rewrite map_map. cbn [snd].
  rewrite (map_ext_in _
             (fun i => segment rows (i * c)
                         (Z.min ((i + 1) * c)
                            (Z.of_nat (List.length rows))))).
  - rewrite (concat_segments row c rows j Hc), length_firstn. lia.
  - intros i Hi. apply in_map_iff in Hi. destruct Hi as [m [<- Hm]].
    apply in_seq in Hm.
    replace (Z.of_nat m * c + c) with ((Z.of_nat m + 1) * c) by lia.
    apply py_slice_segment; nia.
Qed.

Section Generated.

Variable uuid4 : nat -> string.

Lemma write_chunks_nth_generated :
  forall a id rest chunks n j idx chunk,
    effective_id_column a = Some id ->
    effective_generate_uuid a = true ->
    id <> ""%string -> ~ In id rest ->
    nth_error chunks j = Some (idx, chunk) ->
    nth_error (fst (write_chunks uuid4 a (id :: rest) chunks n)) j
    = Some (fst (write_chunk_sql uuid4 idx chunk (id :: rest) (table a)
                   (out_base a) (Some id) true
                   (n + List.length
                          (List.concat (map snd (firstn j chunks)))))).
Proof.
  intros a id rest chunks n j idx chunk E G Hid Hn. revert n j.
  induction chunks as [| [i0 c0] more IH]; intros n j H.
  - destruct j; discriminate H.
  - cbn [write_chunks]. rewrite E, G.
    pose proof (chunk_statements_key_first uuid4 id rest (table a) c0 n
                  Hid Hn) as [S1 _].
    unfold write_chunk_sql in *.
    destruct (chunk_statements uuid4 c0 (id :: rest) (table a) (Some id)
                true n) as [stmts n1] eqn:Ec.
    cbn [snd] in S1. subst n1.
    specialize (IH (n + List.length c0)%nat).
    destruct (write_chunks uuid4 a (id :: rest) more (n + List.length c0))
      as [files n2].
    cbn [fst] in *. destruct j as [| j]; cbn [nth_error] in *.
    + injection H as <- <-. cbn [firstn map List.concat List.length].
      now rewrite Nat.add_0_r, Ec.
    + rewrite (IH j H). cbn [firstn map List.concat snd].
      rewrite length_app. now rewrite Nat.add_assoc.
Qed.


End Generated.


End ScriptFacts.
